(** * Significance evaluation of [eval-report.ipynb]

    A shallow embedding of the notebook: the cells that list the folders
    and load the files, the cell that fills missing metric values, the cell
    that reshapes the table for the bar chart, the three "Friedman" cells and
    the three "post hoc" cells.  Metric values, statistics and p-values are IEEE binary64
    numbers, as Python's [float] and numpy's [float64] are; the two SciPy
    routines ([friedmanchisquare], [wilcoxon]) and the table computed by
    LensKit are not part of the notebook and are taken as parameters.

    A cell is a computation over the notebook's global variables that can
    print lines and can raise a Python exception; the globals and the
    printed lines survive an exception, as they do in a Python session. *)

From Stdlib Require Import List String Ascii Bool Arith Lia ZArith.
From Stdlib Require Import Floats Uint63 Sorted Permutation.
From Stdlib Require OrderedTypeEx.
Import ListNotations.

Set Warnings "-inexact-float".

Local Open Scope string_scope.
Local Open Scope list_scope.

(** ** Python values used by the notebook *)

(** The exceptions that can end a cell. [ValueError] is what SciPy raises on
    input it rejects; the other two come from the notebook's own
    subscripts and division. *)
Inductive exn : Type :=
| IndexError
| ZeroDivisionError
| ValueError (msg : string).

(** Outcome of an expression or of a cell: an exception or a value. *)
Inductive outcome (A : Type) : Type :=
| Raised (e : exn)
| Returned (a : A).
Arguments Raised {A} e.
Arguments Returned {A} a.

(** [l[i]] for a list and a non-negative index. *)
Definition getitem {A : Type} (l : list A) (i : nat) : outcome A :=
  match nth_error l i with
  | Some x => Returned x
  | None => Raised IndexError
  end.

(** [list(range(n))]. *)
Definition range (n : nat) : list nat := seq 0 n.

(** [itertools.combinations(l, r)]: the [r]-element subsequences of [l], in
    lexicographic order of their positions. *)
Fixpoint combinations {A : Type} (l : list A) (r : nat) {struct l} : list (list A) :=
  match r, l with
  | O, _ => [[]]
  | S _, [] => []
  | S r', x :: xs => map (cons x) (combinations xs r') ++ combinations xs r
  end.

(** The binomial coefficient, by Pascal's rule. *)
Fixpoint binomial (n k : nat) : nat :=
  match n, k with
  | _, O => 1
  | O, S _ => 0
  | S n', S k' => binomial n' k' + binomial n' k
  end.

(** A Python [int] that is a length, converted to [float] for a division. *)
Definition float_of_len (n : nat) : float :=
  PrimFloat.of_uint63 (Uint63.of_Z (Z.of_nat n)).

(** ** The metric table *)

(** One row of [results] after [reset_index()]: the three index levels and
    the five columns that [RecListAnalysis.compute] produces.  A missing value
    is a NaN, as pandas stores it. *)
Record row : Type := mkRow {
  dataset : string;
  algorithm : string;
  user : Z;
  nrecs : float;
  precision : float;
  recip_rank : float;
  ndcg : float;
  ntruth : float
}.

Definition table : Type := list row.

(** The three columns the notebook tests: [data["precision"]],
    [data["ndcg"]], [data["recip_rank"]]. *)
Inductive metric : Type := Precision | Ndcg | RecipRank.

Definition column (m : metric) (r : row) : float :=
  match m with
  | Precision => precision r
  | Ndcg => ndcg r
  | RecipRank => recip_rank r
  end.

(** [x] after [fillna(v)]. *)
Definition fill (v x : float) : float := if PrimFloat.is_nan x then v else x.

(** [results.fillna(v)]: every missing cell of every column becomes [v]. *)
Definition fillna (v : float) (t : table) : table :=
  map (fun r => {| dataset := dataset r;
                   algorithm := algorithm r;
                   user := user r;
                   nrecs := fill v (nrecs r);
                   precision := fill v (precision r);
                   recip_rank := fill v (recip_rank r);
                   ndcg := fill v (ndcg r);
                   ntruth := fill v (ntruth r) |}) t.

(** Insertion of a group key into the sorted list of distinct keys. *)
Fixpoint insert_key (k : string) (ks : list string) : list string :=
  match ks with
  | [] => [k]
  | k' :: ks' =>
      match String.compare k k' with
      | Lt => k :: ks
      | Eq => ks
      | Gt => k' :: insert_key k ks'
      end
  end.

(** The keys of [groupby("algorithm")]: the distinct values of the column,
    sorted (pandas' default [sort=True]). *)
Definition group_keys (t : table) : list string :=
  fold_right insert_key [] (map algorithm t).

(** The rows of one group, in the order of the table. *)
Definition group_rows (t : table) (k : string) : table :=
  filter (fun r => String.eqb (algorithm r) k) t.

(** The order of the keys: [a < b] on Python strings. *)
Definition key_lt (a b : string) : Prop := String.compare a b = Lt.

(** [(results.reset_index()).groupby("algorithm")], as the sequence of
    [(alg, data)] pairs the [for] loop receives. *)
Definition groupby_algorithm (t : table) : list (string * table) :=
  map (fun k => (k, group_rows t k)) (group_keys t).


(** [data[m].to_numpy()]. *)
Definition to_numpy (m : metric) (data : table) : list float :=
  map (column m) data.

(** ** What a cell prints *)

(** The [pd.Series] that [wilcox_bonf] returns. *)
Record series : Type := mkSeries {
  Pair : string * string;
  Statistics : float;
  p_value : float;
  Decision : string
}.

(** A printed line, by the format string that produced it, with the values
    that were formatted:
    ['Statistics=%.3f, p=%.3f'] and ['%s, Statistics=%.3f, p-value=%.3f, %s']. *)
Inductive line : Type :=
| FriedmanLine (stat p : float)
| PairLine (pair : string * string) (stat p : float) (decision : string).

Definition is_pair_line (l : line) : bool :=
  match l with
  | PairLine _ _ _ _ => true
  | FriedmanLine _ _ => false
  end.

(** ** Global variables and cells *)

(** The module-level variables the cells assign and read, and the lines
    printed so far.  The loop variables and [stat], [p] and [result], which
    every cell assigns before it reads them, are bound where they are used. *)
Record globals : Type := mkGlobals {
  results : table;
  alg_vals : list (list float);
  alg_names : list string;
  n_compare : list (list nat);
  stdout : list line
}.

(** A computation over the globals that returns or raises. *)
Definition M (A : Type) : Type := globals -> globals * outcome A.

Definition ret {A : Type} (a : A) : M A := fun g => (g, Returned a).

Definition raise {A : Type} (e : exn) : M A := fun g => (g, Raised e).

Definition bind {A B : Type} (c : M A) (k : A -> M B) : M B :=
  fun g =>
    match c g with
    | (g', Returned a) => k a g'
    | (g', Raised e) => (g', Raised e)
    end.

Notation "x <- c ;; k" := (bind c (fun x => k))
  (at level 61, c at next level, right associativity).
Notation "c ;;; k" := (bind c (fun _ => k))
  (at level 61, right associativity).

(** An expression that cannot touch the globals. *)
Definition lift {A : Type} (o : outcome A) : M A := fun g => (g, o).

Definition read {A : Type} (f : globals -> A) : M A := fun g => (g, Returned (f g)).

Definition set_results (t : table) : M unit :=
  fun g => (mkGlobals t (alg_vals g) (alg_names g) (n_compare g) (stdout g), Returned tt).

Definition set_alg_vals (v : list (list float)) : M unit :=
  fun g => (mkGlobals (results g) v (alg_names g) (n_compare g) (stdout g), Returned tt).

Definition set_alg_names (v : list string) : M unit :=
  fun g => (mkGlobals (results g) (alg_vals g) v (n_compare g) (stdout g), Returned tt).

Definition set_n_compare (v : list (list nat)) : M unit :=
  fun g => (mkGlobals (results g) (alg_vals g) (alg_names g) v (stdout g), Returned tt).

Definition print (l : line) : M unit :=
  fun g => (mkGlobals (results g) (alg_vals g) (alg_names g) (n_compare g)
              (stdout g ++ [l]), Returned tt).

(** [for x in l: body]. *)
Fixpoint for_each {A : Type} (l : list A) (body : A -> M unit) : M unit :=
  match l with
  | [] => ret tt
  | x :: xs => body x ;;; for_each xs body
  end.

(** ** The cells *)

Definition same_decision : string := "Metric is the same (fail to reject H0)".
Definition different_decision : string := "Metric is different (reject H0)".

Section Notebook.

(** [scipy.stats.friedmanchisquare] called on four samples and
    [scipy.stats.wilcoxon] called on two: each returns [(statistic, pvalue)]
    or raises. *)
Variable friedmanchisquare :
  list float -> list float -> list float -> list float -> outcome (float * float).
Variable wilcoxon : list float -> list float -> outcome (float * float).

(** The first half of a metric's section:
<<
alg_vals = []
alg_names = []
for alg, data in (results.reset_index()).groupby("algorithm"):
    alg_names.append(alg)
    alg_vals.append(data[m].to_numpy())
stat, p = friedmanchisquare(alg_vals[0], alg_vals[1], alg_vals[2], alg_vals[3])
print('Statistics=%.3f, p=%.3f' % (stat, p))
>> *)
Definition friedman_cell (m : metric) : M unit :=
  set_alg_vals [] ;;;
  set_alg_names [] ;;;
  t <- read results ;;
  for_each (groupby_algorithm t) (fun '(alg, data) =>
    names <- read alg_names ;;
    set_alg_names (names ++ [alg]) ;;;
    vals <- read alg_vals ;;
    set_alg_vals (vals ++ [to_numpy m data])) ;;;
  vals <- read alg_vals ;;
  v0 <- lift (getitem vals 0) ;;
  v1 <- lift (getitem vals 1) ;;
  v2 <- lift (getitem vals 2) ;;
  v3 <- lift (getitem vals 3) ;;
  sp <- lift (friedmanchisquare v0 v1 v2 v3) ;;
  print (FriedmanLine (fst sp) (snd sp)).

(** [new_alpha = alpha/len(n_compare)], with [alpha = 0.05]. *)
Definition alpha : float := 0.05%float.

Definition new_alpha (nc : list (list nat)) : float :=
  (alpha / float_of_len (List.length nc))%float.

(** [wilcox_bonf(data1, data2, alg_pair)]; [n_compare] is the global, read
    when the function runs. *)
Definition wilcox_bonf (data1 data2 : list float) (alg_pair : string * string) : M series :=
  sp <- lift (wilcoxon data1 data2) ;;
  nc <- read n_compare ;;
  match nc with
  | [] => raise ZeroDivisionError
  | _ :: _ =>
      let decision :=
        if (new_alpha nc <? snd sp)%float then same_decision else different_decision in
      ret {| Pair := alg_pair; Statistics := fst sp; p_value := snd sp;
             Decision := decision |}
  end.

(** The second half of a metric's section:
<<
n_compare = list(combinations(list(range(4)), 2 ))
for idx in n_compare:
    result = wilcox_bonf(alg_vals[idx[0]], alg_vals[idx[1]],
                         (alg_names[idx[0]], alg_names[idx[1]]))
    print('%s, Statistics=%.3f, p-value=%.3f, %s' % (...))
>> *)
Definition posthoc_body (idx : list nat) : M unit :=
  vals <- read alg_vals ;;
  names <- read alg_names ;;
  i <- lift (getitem idx 0) ;;
  d1 <- lift (getitem vals i) ;;
  j <- lift (getitem idx 1) ;;
  d2 <- lift (getitem vals j) ;;
  a <- lift (getitem names i) ;;
  b <- lift (getitem names j) ;;
  result <- wilcox_bonf d1 d2 (a, b) ;;
  print (PairLine (Pair result) (Statistics result) (p_value result) (Decision result)).

Definition posthoc_cell : M unit :=
  set_n_compare (combinations (range 4) 2) ;;;
  pairs <- read n_compare ;;
  for_each pairs posthoc_body.

(** One metric's section of the notebook, its two cells run in order. *)
Definition evaluate (m : metric) : M unit :=
  friedman_cell m ;;; posthoc_cell.

(** The "Compute Metrics" cell, from the table [rla.compute] returned:
    [results = results.fillna(0)]. *)
Definition compute_cell (computed : table) : M unit :=
  set_results (fillna 0%float computed).

(** The notebook from that cell on, run top to bottom: precision, ndcg,
    recip_rank. *)
Definition notebook (computed : table) : M unit :=
  compute_cell computed ;;;
  evaluate Precision ;;;
  evaluate Ndcg ;;;
  evaluate RecipRank.

(** *** The cells as functions of what they read

    The same computations without the plumbing: what a cell leaves in the
    globals and prints is a function of the table (first cell) or of
    [alg_vals], [alg_names] and [n_compare] (second cell).  The lemmas of the
    next part show that the cells compute exactly these. *)

Definition obind {A B : Type} (o : outcome A) (k : A -> outcome B) : outcome B :=
  match o with
  | Raised e => Raised e
  | Returned a => k a
  end.

(** [alg_vals] and [alg_names] after the loop over the groups. *)
Definition sample_vectors (m : metric) (t : table) : list (list float) :=
  map (fun kd => to_numpy m (snd kd)) (groupby_algorithm t).

Definition sample_names (t : table) : list string :=
  map fst (groupby_algorithm t).

(** The call [friedmanchisquare(alg_vals[0], ..., alg_vals[3])], arguments
    evaluated left to right. *)
Definition omnibus (vals : list (list float)) : outcome (float * float) :=
  obind (getitem vals 0) (fun v0 =>
  obind (getitem vals 1) (fun v1 =>
  obind (getitem vals 2) (fun v2 =>
  obind (getitem vals 3) (fun v3 =>
  friedmanchisquare v0 v1 v2 v3)))).

(** The decision [wilcox_bonf] takes for p-value [p] when [n_compare] is [nc]. *)
Definition decide (nc : list (list nat)) (p : float) : string :=
  if (new_alpha nc <? p)%float then same_decision else different_decision.

(** One iteration of the pairwise loop, up to the [print]. *)
Definition compare_pair (vals : list (list float)) (names : list string)
  (nc : list (list nat)) (idx : list nat) : outcome series :=
  obind (getitem idx 0) (fun i =>
  obind (getitem vals i) (fun d1 =>
  obind (getitem idx 1) (fun j =>
  obind (getitem vals j) (fun d2 =>
  obind (getitem names i) (fun a =>
  obind (getitem names j) (fun b =>
  obind (wilcoxon d1 d2) (fun sp =>
  match nc with
  | [] => Raised ZeroDivisionError
  | _ :: _ => Returned {| Pair := (a, b); Statistics := fst sp; p_value := snd sp;
                          Decision := decide nc (snd sp) |}
  end))))))).

Definition line_of (s : series) : line :=
  PairLine (Pair s) (Statistics s) (p_value s) (Decision s).

(** The lines the pairwise loop prints over [pairs], and how it ends: it
    stops at the first iteration that raises. *)
Fixpoint posthoc_report (vals : list (list float)) (names : list string)
  (nc : list (list nat)) (pairs : list (list nat)) : list line * outcome unit :=
  match pairs with
  | [] => ([], Returned tt)
  | idx :: rest =>
      match compare_pair vals names nc idx with
      | Raised e => ([], Raised e)
      | Returned s =>
          let '(ls, o) := posthoc_report vals names nc rest in
          (line_of s :: ls, o)
      end
  end.

(** The lines one metric's section prints, and how it ends. *)
Definition report (m : metric) (t : table) : list line * outcome unit :=
  match omnibus (sample_vectors m t) with
  | Raised e => ([], Raised e)
  | Returned sp =>
      let nc := combinations (range 4) 2 in
      let '(ls, o) := posthoc_report (sample_vectors m t) (sample_names t) nc nc in
      (FriedmanLine (fst sp) (snd sp) :: ls, o)
  end.

End Notebook.

(** The globals with more lines printed. *)
Definition printed (g : globals) (ls : list line) : globals :=
  mkGlobals (results g) (alg_vals g) (alg_names g) (n_compare g) (stdout g ++ ls).

(** The lines a computation adds to those already printed. *)
Definition emitted {A : Type} (c : M A) (g : globals) : list line :=
  skipn (List.length (stdout g)) (stdout (fst (c g))).

(** The pairs named on the pairwise lines, in print order. *)
Definition pairs_of (ls : list line) : list (string * string) :=
  flat_map (fun l => match l with
                     | PairLine pr _ _ _ => [pr]
                     | FriedmanLine _ _ => []
                     end) ls.

(** All paired differences [x - y] are zero (samples of equal length). *)
Definition zero_differences (data1 data2 : list float) : bool :=
  Nat.eqb (List.length data1) (List.length data2)
  && forallb (fun xy => (fst xy - snd xy =? 0)%float) (combine data1 data2).

(** A fresh kernel: nothing assigned, nothing printed. *)
Definition fresh : globals := mkGlobals [] [] [] [] [].

(** ** Concrete inputs

    Small tables and stand-ins for the two SciPy routines, on which the
    cells are run in the examples below.  The stand-ins return fixed
    statistics; the checked ones reject what SciPy rejects. *)

Definition obs (alg : string) (u : Z) (p r n : float) : row :=
  mkRow "ml100k" alg u 100%float p r n 5%float.

(** The four algorithms of the notebook's data, two users each, in file order. *)
Definition four : table :=
  [ obs "UU" 1 0.5 0.25 0.5;      obs "UU" 2 0.25 0.5 0.125;
    obs "ALS" 1 0.02 0.0125 0.1;  obs "ALS" 2 nan nan nan;
    obs "II" 1 0.125 0.5 0.25;    obs "II" 2 0.5 1 0.75;
    obs "IALS" 1 0.25 0.125 0.5;  obs "IALS" 2 0.75 0.5 0.25 ]%float.

(** A fifth algorithm added. *)
Definition five : table :=
  four ++ [ obs "Pop" 1 0.5 0.5 0.5; obs "Pop" 2 0.25 0.25 0.25 ]%float.

(** A single algorithm. *)
Definition one : table :=
  [ obs "ALS" 1 0.02 0.0125 0.1; obs "ALS" 2 0.01 0.5 0.25 ]%float.

(** Four algorithms, one of them with a user the others lack. *)
Definition ragged : table :=
  four ++ [ obs "ALS" 3 0.5 0.5 0.5 ]%float.

(** Two samples that agree on every observation. *)
Definition twin : list float := [0.02; 0.01; 0]%float.

Definition friedman_const (sp : float * float)
  (a b c d : list float) : outcome (float * float) := Returned sp.

Definition wilcoxon_const (sp : float * float)
  (x y : list float) : outcome (float * float) := Returned sp.

(** [friedmanchisquare] rejects samples of unequal length. *)
Definition friedman_checked (sp : float * float)
  (a b c d : list float) : outcome (float * float) :=
  let n := List.length a in
  if Nat.eqb (List.length b) n && Nat.eqb (List.length c) n && Nat.eqb (List.length d) n
  then Returned sp
  else Raised (ValueError "Unequal N in friedmanchisquare.  Aborting.").

(** [wilcoxon] as in the SciPy releases that reject samples of unequal length
    and samples whose differences are all zero. *)
Definition wilcoxon_checked (sp : float * float)
  (x y : list float) : outcome (float * float) :=
  if negb (Nat.eqb (List.length x) (List.length y))
  then Raised (ValueError "The samples x and y must have the same length.")
  else if zero_differences x y
  then Raised (ValueError "zero_method 'wilcox' and 'pratt' do not work if x - y is zero for all elements.")
  else Returned sp.

(** Four algorithms of which the first two agree on precision only. *)
Definition tied : table :=
  [ obs "ALS" 1 0.5 0.25 0.5;     obs "ALS" 2 0.25 0.5 0.125;
    obs "IALS" 1 0.5 0.125 0.25;  obs "IALS" 2 0.25 0.25 0.5;
    obs "II" 1 0.125 0.5 0.25;    obs "II" 2 0.5 1 0.75;
    obs "UU" 1 0.25 0.125 0.5;    obs "UU" 2 0.75 0.5 0.25 ]%float.

(** An omnibus result that is significant at 0.05, and one that is not. *)
Definition significant : float * float := (1.5, 0.001)%float.
Definition not_significant : float * float := (1.5, 0.4)%float.

(** A pairwise result with the largest p-value, and an undefined one. *)
Definition no_difference : float * float := (0, 1)%float.
Definition undefined : float * float := (nan, nan)%float.

(** A session in which [results] holds [t] and nothing else is assigned. *)
Definition session (t : table) : globals := mkGlobals t [] [] [] [].

(** A session in which the pairwise cell has assigned [n_compare]. *)
Definition posthoc_session : globals :=
  mkGlobals [] [] [] (combinations (range 4) 2) [].

(** ** The cells that load and reshape

    The cells before the significance tests: the directory listing, the
    loops that read the recommendation, prediction and test files, and the
    reshaping of [results] for the bar chart.  The disk is a parameter: a
    directory is the list of its entries, in the order the system lists
    them, and [pd.read_csv] is a function from a file to the rows it holds,
    or an exception. *)

(** [s.split(sep)] for a separator of one character. *)
Fixpoint split (sep : ascii) (s : string) : list string :=
  match s with
  | EmptyString => [EmptyString]
  | String c s' =>
      if Ascii.eqb c sep then EmptyString :: split sep s'
      else match split sep s' with
           | piece :: pieces => String c piece :: pieces
           | [] => [String c EmptyString]
           end
  end.

(** The match of one path component against a pattern, as [Path.glob]
    does it on a case-sensitive file system: [*] stands for any characters,
    [?] for one, every other character for itself.  (Bracket classes do not
    occur in the notebook's patterns.) *)
Fixpoint fnmatch (pat : string) : string -> bool :=
  match pat with
  | EmptyString => fun s => match s with EmptyString => true | String _ _ => false end
  | String c pat' =>
      if Ascii.eqb c "*" then
        fix star (s : string) : bool :=
          fnmatch pat' s
          || match s with EmptyString => false | String _ s' => star s' end
      else if Ascii.eqb c "?" then
        fun s => match s with EmptyString => false | String _ s' => fnmatch pat' s' end
      else
        fun s => match s with
                 | EmptyString => false
                 | String a s' => Ascii.eqb a c && fnmatch pat' s'
                 end
  end.

(** The characters a pattern does not take literally. *)
Definition is_magic (c : ascii) : bool :=
  Ascii.eqb c "*" || Ascii.eqb c "?" || Ascii.eqb c "[".

Fixpoint has_char (f : ascii -> bool) (s : string) : bool :=
  match s with
  | EmptyString => false
  | String c s' => f c || has_char f s'
  end.

(** An entry of a directory: its name and, when it is a directory itself,
    its files with what they hold. *)
Record folder (F : Type) : Type := mkFolder {
  name : string;
  files : list (string * F)
}.
Arguments mkFolder {F} name files.
Arguments name {F} f.
Arguments files {F} f.

(** [d.glob(pattern)] for a pattern of one component: the entries of [d]
    whose name matches, in listing order. *)
Definition glob {E : Type} (entry_name : E -> string) (pattern : string)
  (entries : list E) : list E :=
  filter (fun e => fnmatch pattern (entry_name e)) entries.

(** A row of a file with the two columns the loading loops add. *)
Record labelled (A : Type) : Type := mkLabelled {
  dataset_label : string;
  algorithm_label : string;
  payload : A
}.
Arguments mkLabelled {A} dataset_label algorithm_label payload.
Arguments dataset_label {A} l.
Arguments algorithm_label {A} l.
Arguments payload {A} l.

(** [pd.concat(frames, ignore_index=True)]. *)
Definition concat_frames {A : Type} (frames : list (list A)) : outcome (list A) :=
  match frames with
  | [] => Raised (ValueError "No objects to concatenate")
  | _ :: _ => Returned (List.concat frames)
  end.

Section Loading.

Variable F : Type.
Variable A : Type.

(** [pd.read_csv(file, sep=',')]. *)
Variable read_csv : F -> outcome (list A).

(** [dirs = [fld for fld in output_root.glob(f'{dataset}-*')]], for a
    dataset name without [/]: the pattern is then one path component, matched
    against the names of the entries of [output_root].  ([Path.glob] splits a
    pattern at [/] and descends into folders; such a dataset name is outside
    this definition, and the theorems about it exclude it.) *)
Definition dirs_cell (dataset : string) (output_root : list (folder F)) : list (folder F) :=
  glob name (dataset ++ "-*") output_root.

(** The body of the inner loop, for one file of the folder [fld]:
<<
rec = pd.read_csv(file, sep=',')
rec["dataset"] = fld.name.split("-")[0]
rec["algorithm"] = fld.name.split("-")[1]
recs.append(rec)
>> *)
Definition load_file (fld : folder F) (file : string * F)
  (recs : list (list (labelled A))) : outcome (list (list (labelled A))) :=
  obind (read_csv (snd file)) (fun rec =>
  obind (getitem (split "-" (name fld)) 0) (fun d =>
  obind (getitem (split "-" (name fld)) 1) (fun a =>
  Returned (recs ++ [map (mkLabelled d a) rec])))).

(** [for file in fld.glob(pattern): ...]. *)
Fixpoint load_files (fld : folder F) (matched : list (string * F))
  (recs : list (list (labelled A))) : outcome (list (list (labelled A))) :=
  match matched with
  | [] => Returned recs
  | file :: rest => obind (load_file fld file recs) (load_files fld rest)
  end.

(** [for fld in dirs: for file in fld.glob(pattern): ...]. *)
Fixpoint load_dirs (pattern : string) (dirs : list (folder F))
  (recs : list (list (labelled A))) : outcome (list (list (labelled A))) :=
  match dirs with
  | [] => Returned recs
  | fld :: rest =>
      obind (load_files fld (glob fst pattern (files fld)) recs) (load_dirs pattern rest)
  end.

(** A loading cell: the list starts empty, the loops fill it, [pd.concat]
    joins it. *)
Definition load (pattern : string) (dirs : list (folder F)) : outcome (list (labelled A)) :=
  obind (load_dirs pattern dirs []) concat_frames.

Definition recs_cell (dirs : list (folder F)) : outcome (list (labelled A)) :=
  load "recs-*" dirs.

Definition preds_cell (dirs : list (folder F)) : outcome (list (labelled A)) :=
  load "pred-*" dirs.

(** The test data:
<<
test = []
for file in split_dir.glob("test-*.csv"):
    test.append(pd.read_csv(file, sep=','))
test = pd.concat(test, ignore_index=True)
>> *)
Fixpoint read_all (matched : list (string * F)) (test : list (list A)) : outcome (list (list A)) :=
  match matched with
  | [] => Returned test
  | file :: rest => obind (read_csv (snd file)) (fun t => read_all rest (test ++ [t]))
  end.

Definition test_cell (split_dir : list (string * F)) : outcome (list A) :=
  obind (read_all (glob fst "test-*.csv" split_dir) []) concat_frames.

End Loading.

(** The name of a tested column. *)
Definition column_name (m : metric) : string :=
  match m with
  | Precision => "precision"
  | Ndcg => "ndcg"
  | RecipRank => "recip_rank"
  end.

(** A row of [pltData]: its columns ['algorithm', 'user', 'metric', 'val']. *)
Record plt_row : Type := mkPlt {
  plt_algorithm : string;
  plt_user : Z;
  plt_metric : string;
  val : float
}.

(** The columns left by [drop(columns=['nrecs', 'ntruth'])], in the order of
    the table. *)
Definition kept_columns : list metric := [Precision; RecipRank; Ndcg].

(** [stack()] on one row: one entry per column, a missing value dropped. *)
Definition stack_row (r : row) : list plt_row :=
  flat_map (fun m =>
              if PrimFloat.is_nan (column m r) then []
              else [mkPlt (algorithm r) (user r) (column_name m) (column m r)])
    kept_columns.

(** The reshaping cell:
<<
pltData = (results.drop(columns=['nrecs', 'ntruth']).stack()).reset_index().drop(columns=['dataset'])
pltData.columns = ['algorithm', 'user', 'metric', 'val']
>> *)
Definition pltData (t : table) : list plt_row := flat_map stack_row t.

(** The values the bar chart shows for one algorithm and one metric. *)
Definition plotted (k : string) (m : metric) (d : list plt_row) : list float :=
  map val (filter (fun p => String.eqb (plt_algorithm p) k
                            && String.eqb (plt_metric p) (column_name m)) d).

(** A disk with the notebook's layout: two algorithm folders, one of them
    with two recommendation files, an unrelated entry, and a folder of
    another dataset with an empty file. *)
Definition disk : list (folder (list nat)) :=
  [ mkFolder "ml100k-ALS" [("recs-1.csv", [11; 12]); ("pred-1.csv", [1]); ("recs-2.csv", [13])];
    mkFolder "notes.txt" [];
    mkFolder "ml100k-II" [("recs-1.csv", [21])];
    mkFolder "ml1m-ALS" [("recs-1.csv", [])] ].

(** A disk for a dataset whose name has a hyphen. *)
Definition hyphen_disk : list (folder (list nat)) :=
  [ mkFolder "ml-100k-ALS" [("recs-1.csv", [11])];
    mkFolder "ml-100k-II" [("recs-1.csv", [21; 22])] ].

(** A file is the list of its rows. *)
Definition read_rows (f : list nat) : outcome (list nat) := Returned f.

(** A reader that fails on an empty file, as [pd.read_csv] does. *)
Definition read_nonempty (f : list nat) : outcome (list nat) :=
  match f with
  | [] => Raised (ValueError "No columns to parse from file")
  | _ :: _ => Returned f
  end.

(** The two labels a folder name gives: its first and second piece. *)
Definition labels (fld_name : string) : string * string :=
  (nth 0 (split "-" fld_name) EmptyString, nth 1 (split "-" fld_name) EmptyString).

(** The iterations of the two nested loops, in order: each folder with
    each of its files that match. *)
Definition matched_files {F : Type} (pattern : string) (dirs : list (folder F))
  : list (folder F * (string * F)) :=
  flat_map (fun fld => map (pair fld) (glob fst pattern (files fld))) dirs.

(** The frame appended for the rows [rec] of a file of the folder [fld]. *)
Definition frame_of {F A : Type} (fld : folder F) (rec : list A) : list (labelled A) :=
  map (mkLabelled (fst (labels (name fld))) (snd (labels (name fld)))) rec.

(** The two names of a combination, as a pair. *)
Definition as_pair (c : list string) : string * string :=
  (nth 0 c EmptyString, nth 1 c EmptyString).

(** The sample vector of the algorithm [k] for the metric [m]. *)
Definition sample_of (m : metric) (t : table) (k : string) : list float :=
  to_numpy m (group_rows t k).

(** The number of missing values in the three tested columns. *)
Definition missing_cells (t : table) : nat :=
  list_sum (map (fun r =>
                   List.length (filter (fun m => PrimFloat.is_nan (column m r)) kept_columns))
              t).

(** * Properties *)

(** ** The cells compute their summaries *)

Section Cells.

Variable friedmanchisquare :
  list float -> list float -> list float -> list float -> outcome (float * float).
Variable wilcoxon : list float -> list float -> outcome (float * float).

#[local] Arguments groupby_algorithm : simpl never.
#[local] Arguments combinations : simpl never.

Lemma printed_nil (g : globals) : printed g [] = g.
Proof.
  destruct g; unfold printed; simpl. now rewrite app_nil_r.
Qed.

Lemma printed_app (g : globals) (l1 l2 : list line) :
  printed (printed g l1) l2 = printed g (l1 ++ l2).
Proof.
  unfold printed; simpl. now rewrite app_assoc.
Qed.

(** The loop over the groups appends one name and one vector per group. *)
Lemma group_loop (m : metric) (groups : list (string * table)) :
  forall g,
    for_each groups (fun '(alg, data) =>
      names <- read alg_names ;;
      set_alg_names (names ++ [alg]) ;;;
      vals <- read alg_vals ;;
      set_alg_vals (vals ++ [to_numpy m data])) g
    = (mkGlobals (results g)
         (alg_vals g ++ map (fun kd => to_numpy m (snd kd)) groups)
         (alg_names g ++ map fst groups)
         (n_compare g) (stdout g), Returned tt).
Proof.
  induction groups as [|[alg data] rest IH]; intros g; simpl.
  - destruct g; unfold ret; simpl. now rewrite !app_nil_r.
  - unfold bind at 1. cbn. rewrite IH. cbn.
    now rewrite <- !app_assoc.
Qed.

(** The first cell: [alg_vals] and [alg_names] are rebuilt from [results],
    then the omnibus call either raises or prints one line. *)
Lemma friedman_cell_eq (m : metric) (g : globals) :
  friedman_cell friedmanchisquare m g =
  let g1 := mkGlobals (results g) (sample_vectors m (results g))
              (sample_names (results g)) (n_compare g) (stdout g) in
  match omnibus friedmanchisquare (sample_vectors m (results g)) with
  | Raised e => (g1, Raised e)
  | Returned sp => (printed g1 [FriedmanLine (fst sp) (snd sp)], Returned tt)
  end.
Proof.
  unfold friedman_cell.
  unfold bind at 1. cbn.
  unfold bind at 1. rewrite group_loop. cbn.
  fold (sample_vectors m (results g)). fold (sample_names (results g)).
  unfold omnibus, bind, lift, read, print, printed, obind. cbn.
  repeat match goal with
         | |- context [getitem ?l ?i] => destruct (getitem l i); cbn; try reflexivity
         end.
Qed.

(** [wilcox_bonf] is one step of [compare_pair]. *)
Lemma wilcox_bonf_eq (d1 d2 : list float) (pr : string * string) (g : globals) :
  wilcox_bonf wilcoxon d1 d2 pr g =
  (g, obind (wilcoxon d1 d2) (fun sp =>
        match n_compare g with
        | [] => Raised ZeroDivisionError
        | _ :: _ => Returned {| Pair := pr; Statistics := fst sp; p_value := snd sp;
                                Decision := decide (n_compare g) (snd sp) |}
        end)).
Proof.
  unfold wilcox_bonf, bind, lift, read, obind, decide.
  destruct (wilcoxon d1 d2) as [e|sp]; [reflexivity|].
  destruct (n_compare g); reflexivity.
Qed.

(** One iteration of the pairwise loop. *)
Lemma posthoc_body_eq (idx : list nat) (g : globals) :
  posthoc_body wilcoxon idx g =
  match compare_pair wilcoxon (alg_vals g) (alg_names g) (n_compare g) idx with
  | Raised e => (g, Raised e)
  | Returned s => (printed g [line_of s], Returned tt)
  end.
Proof.
  unfold posthoc_body, compare_pair.
  unfold bind at 1. cbn.
  repeat match goal with
         | |- context [getitem ?l ?i] =>
             destruct (getitem l i); cbn; try reflexivity
         end.
  unfold bind. rewrite wilcox_bonf_eq.
  destruct (wilcoxon _ _) as [e|sp]; cbn; [reflexivity|].
  destruct (n_compare g); reflexivity.
Qed.

(** The pairwise loop prints the lines of [posthoc_report] and ends as it does. *)
Lemma posthoc_loop_eq (pairs : list (list nat)) :
  forall g,
    for_each pairs (posthoc_body wilcoxon) g =
    (printed g (fst (posthoc_report wilcoxon (alg_vals g) (alg_names g) (n_compare g) pairs)),
     snd (posthoc_report wilcoxon (alg_vals g) (alg_names g) (n_compare g) pairs)).
Proof.
  induction pairs as [|idx rest IH]; intros g; cbn [for_each posthoc_report].
  - cbn. now rewrite printed_nil.
  - unfold bind. rewrite posthoc_body_eq.
    destruct (compare_pair _ _ _ _ idx) as [e|s]; cbn.
    + now rewrite printed_nil.
    + rewrite IH. cbn.
      destruct (posthoc_report _ _ _ _ rest) as [ls o]; cbn.
      now rewrite printed_app.
Qed.

(** The second cell. *)
Lemma posthoc_cell_eq (g : globals) :
  posthoc_cell wilcoxon g =
  let nc := combinations (range 4) 2 in
  let g1 := mkGlobals (results g) (alg_vals g) (alg_names g) nc (stdout g) in
  (printed g1 (fst (posthoc_report wilcoxon (alg_vals g) (alg_names g) nc nc)),
   snd (posthoc_report wilcoxon (alg_vals g) (alg_names g) nc nc)).
Proof.
  unfold posthoc_cell. unfold bind at 1. cbn.
  unfold bind. cbn. now rewrite posthoc_loop_eq.
Qed.

(** A metric's section prints the lines of [report] after those already
    printed, ends as [report] does, and leaves [results] alone. *)
Lemma evaluate_eq (m : metric) (g : globals) :
  evaluate friedmanchisquare wilcoxon m g =
  (mkGlobals (results g) (sample_vectors m (results g)) (sample_names (results g))
     (match omnibus friedmanchisquare (sample_vectors m (results g)) with
      | Raised _ => n_compare g
      | Returned _ => combinations (range 4) 2
      end)
     (stdout g ++ fst (report friedmanchisquare wilcoxon m (results g))),
   snd (report friedmanchisquare wilcoxon m (results g))).
Proof.
  unfold evaluate, report. unfold bind. rewrite friedman_cell_eq. cbn zeta.
  destruct (omnibus _ _) as [e|sp].
  - cbn. now rewrite app_nil_r.
  - rewrite posthoc_cell_eq. cbn.
    destruct (posthoc_report _ _ _ _ _) as [ls o]; cbn.
    unfold printed; cbn. now rewrite <- app_assoc.
Qed.

End Cells.

(** ** Comparisons of binary64 numbers *)

Lemma SFcompare_antisym (x y : spec_float) :
  SFcompare y x = option_map CompOpp (SFcompare x y).
Proof.
  destruct x as [sx|sx| |sx mx ex], y as [sy|sy| |sy my ey]; cbn;
    try reflexivity;
    try (destruct sx; reflexivity);
    try (destruct sy; reflexivity);
    try (destruct sx, sy; reflexivity).
  destruct sx, sy; cbn; try reflexivity;
    rewrite (Z.compare_antisym ey ex);
    destruct (Z.compare ey ex) eqn:E; cbn; try reflexivity;
    fold (Pos.compare mx my); fold (Pos.compare my mx);
    rewrite (Pos.compare_antisym my mx);
    destruct (Pos.compare my mx); reflexivity.
Qed.

Lemma not_nan_spec (x : float) :
  PrimFloat.is_nan x = false -> Prim2SF x <> S754_nan.
Proof.
  unfold PrimFloat.is_nan. rewrite FloatAxioms.eqb_spec. intros H E.
  rewrite E in H. discriminate H.
Qed.

Lemma SFcompare_defined (x y : spec_float) :
  x <> S754_nan -> y <> S754_nan -> exists c, SFcompare x y = Some c.
Proof.
  intros Hx Hy.
  destruct x, y; try congruence; cbn; eauto.
Qed.

(** For numbers, [y < x] is the negation of [x <= y]. *)
Lemma ltb_negb_leb (x y : float) :
  PrimFloat.is_nan x = false -> PrimFloat.is_nan y = false ->
  (y <? x)%float = negb (x <=? y)%float.
Proof.
  intros Hx Hy. apply not_nan_spec in Hx. apply not_nan_spec in Hy.
  rewrite FloatAxioms.ltb_spec, FloatAxioms.leb_spec. unfold SFltb, SFleb.
  rewrite (SFcompare_antisym (Prim2SF x) (Prim2SF y)).
  destruct (SFcompare_defined _ _ Hx Hy) as [c ->].
  destruct c; reflexivity.
Qed.

(** A comparison with a NaN is false. *)
Lemma ltb_nan_r (x y : float) : PrimFloat.is_nan y = true -> (x <? y)%float = false.
Proof.
  unfold PrimFloat.is_nan. rewrite FloatAxioms.eqb_spec, FloatAxioms.ltb_spec.
  unfold SFeqb, SFltb.
  destruct (Prim2SF y); cbn; try discriminate.
  - destruct s; discriminate.
  - intros _. now destruct (Prim2SF x).
  - destruct s; cbn; rewrite Z.compare_refl;
      fold (Pos.compare m m); rewrite Pos.compare_refl; discriminate.
Qed.

(** [fillna] leaves no NaN behind when the fill value is a number. *)
Lemma fill_not_nan (v x : float) :
  PrimFloat.is_nan v = false -> PrimFloat.is_nan (fill v x) = false.
Proof.
  intros Hv. unfold fill. destruct (PrimFloat.is_nan x) eqn:E; assumption.
Qed.

(** ** What an evaluation prints *)

Section Reports.

Variable friedmanchisquare :
  list float -> list float -> list float -> list float -> outcome (float * float).
Variable wilcoxon : list float -> list float -> outcome (float * float).

#[local] Arguments combinations : simpl never.

Lemma skipn_length_app {A : Type} (l l' : list A) :
  skipn (List.length l) (l ++ l') = l'.
Proof.
  induction l as [|x l IH]; [reflexivity | exact IH].
Qed.

(** The lines a metric's section adds are those of [report]. *)
Lemma emitted_evaluate (m : metric) (g : globals) :
  emitted (evaluate friedmanchisquare wilcoxon m) g
  = fst (report friedmanchisquare wilcoxon m (results g)).
Proof.
  unfold emitted. rewrite evaluate_eq. cbn. apply skipn_length_app.
Qed.

Lemma outcome_evaluate (m : metric) (g : globals) :
  snd (evaluate friedmanchisquare wilcoxon m g)
  = snd (report friedmanchisquare wilcoxon m (results g)).
Proof.
  now rewrite evaluate_eq.
Qed.

Lemma results_evaluate (m : metric) (g : globals) :
  results (fst (evaluate friedmanchisquare wilcoxon m g)) = results g.
Proof.
  now rewrite evaluate_eq.
Qed.

(** What a pairwise iteration that returns has done. *)
Lemma compare_pair_returned vals names nc idx s :
  compare_pair wilcoxon vals names nc idx = Returned s ->
  exists i j d1 d2 a b sp,
    getitem idx 0 = Returned i /\ getitem idx 1 = Returned j /\
    getitem vals i = Returned d1 /\ getitem vals j = Returned d2 /\
    getitem names i = Returned a /\ getitem names j = Returned b /\
    wilcoxon d1 d2 = Returned sp /\
    s = {| Pair := (a, b); Statistics := fst sp; p_value := snd sp;
           Decision := decide nc (snd sp) |}.
Proof.
  unfold compare_pair, obind. intros H.
  destruct (getitem idx 0) as [|i] eqn:E1; [discriminate|].
  destruct (getitem vals i) as [|d1] eqn:E2; [discriminate|].
  destruct (getitem idx 1) as [|j] eqn:E3; [discriminate|].
  destruct (getitem vals j) as [|d2] eqn:E4; [discriminate|].
  destruct (getitem names i) as [|a] eqn:E5; [discriminate|].
  destruct (getitem names j) as [|b] eqn:E6; [discriminate|].
  destruct (wilcoxon d1 d2) as [|sp] eqn:W; [discriminate|].
  destruct nc; [discriminate|].
  injection H as <-.
  exists i, j, d1, d2, a, b, sp. repeat split; assumption || reflexivity.
Qed.

(** Every line of the pairwise loop is the line of an iteration that returned. *)
Lemma posthoc_report_lines vals names nc pairs l :
  In l (fst (posthoc_report wilcoxon vals names nc pairs)) ->
  exists idx s, In idx pairs /\
    compare_pair wilcoxon vals names nc idx = Returned s /\ l = line_of s.
Proof.
  induction pairs as [|idx rest IH]; cbn; [contradiction|].
  destruct (compare_pair _ _ _ _ idx) as [e|s] eqn:E; cbn; [contradiction|].
  destruct (posthoc_report _ _ _ _ rest) as [ls o]; cbn in *.
  intros [<-|H].
  - exists idx, s. auto.
  - destruct (IH H) as (idx' & s' & Hin & Hc & Hl).
    exists idx', s'. auto.
Qed.

(** A loop that ends normally printed one line per pair, in order. *)
Lemma posthoc_report_returned vals names nc pairs :
  snd (posthoc_report wilcoxon vals names nc pairs) = Returned tt ->
  Forall2 (fun idx l => exists s,
             compare_pair wilcoxon vals names nc idx = Returned s /\ l = line_of s)
    pairs (fst (posthoc_report wilcoxon vals names nc pairs)).
Proof.
  induction pairs as [|idx rest IH]; cbn; [constructor|].
  destruct (compare_pair _ _ _ _ idx) as [e|s] eqn:E; cbn; [discriminate|].
  destruct (posthoc_report _ _ _ _ rest) as [ls o]; cbn in *.
  intros H. constructor; [eauto | auto].
Qed.

(** The loop prints pairwise lines only. *)
Lemma posthoc_report_pair_lines vals names nc pairs :
  forallb is_pair_line (fst (posthoc_report wilcoxon vals names nc pairs)) = true.
Proof.
  induction pairs as [|idx rest IH]; cbn; [reflexivity|].
  destruct (compare_pair _ _ _ _ idx) as [e|s]; cbn; [reflexivity|].
  destruct (posthoc_report _ _ _ _ rest) as [ls o]; cbn in *. exact IH.
Qed.

(** With fewer than four groups the fourth subscript of the omnibus call,
    or an earlier one, is out of range. *)
Lemma omnibus_few (vals : list (list float)) :
  List.length vals < 4 -> omnibus friedmanchisquare vals = Raised IndexError.
Proof.
  intros H. unfold omnibus, obind, getitem.
  destruct vals as [|v0 [|v1 [|v2 [|v3 rest]]]]; cbn in *; try reflexivity. lia.
Qed.

Lemma sample_vectors_length (m : metric) (t : table) :
  List.length (sample_vectors m t) = List.length (group_keys t).
Proof.
  unfold sample_vectors, groupby_algorithm. now rewrite !length_map.
Qed.

Lemma sample_names_keys (t : table) : sample_names t = group_keys t.
Proof.
  unfold sample_names, groupby_algorithm. rewrite map_map. cbn. apply map_id.
Qed.

(** Fewer than four groups: the section raises [IndexError] in its first
    cell, before either routine is called and before anything is printed. *)
Lemma evaluate_few (m : metric) (g : globals) :
  List.length (group_keys (results g)) < 4 ->
  evaluate friedmanchisquare wilcoxon m g =
  (mkGlobals (results g) (sample_vectors m (results g)) (sample_names (results g))
     (n_compare g) (stdout g), Raised IndexError).
Proof.
  intros H. rewrite evaluate_eq. unfold report.
  rewrite omnibus_few by now rewrite sample_vectors_length.
  cbn. now rewrite app_nil_r.
Qed.

End Reports.

(** ** The group keys *)

Lemma key_lt_trans (a b c : string) : key_lt a b -> key_lt b c -> key_lt a c.
Proof.
  unfold key_lt. intros H1 H2.
  apply OrderedTypeEx.String_as_OT.cmp_lt.
  apply OrderedTypeEx.String_as_OT.cmp_lt in H1, H2.
  eapply OrderedTypeEx.String_as_OT.lt_trans; eassumption.
Qed.

Lemma key_lt_irrefl (a : string) : ~ key_lt a a.
Proof.
  unfold key_lt. intros H.
  apply OrderedTypeEx.String_as_OT.cmp_lt in H.
  apply OrderedTypeEx.String_as_OT.lt_not_eq in H. now apply H.
Qed.

Lemma key_gt_lt (a b : string) : String.compare a b = Gt -> key_lt b a.
Proof.
  unfold key_lt. intros H. rewrite String.compare_antisym, H. reflexivity.
Qed.

Lemma insert_key_In (k x : string) (ks : list string) :
  In x (insert_key k ks) <-> x = k \/ In x ks.
Proof.
  induction ks as [|k' ks IH]; cbn.
  - intuition.
  - destruct (String.compare k k') eqn:E; cbn.
    + apply String.compare_eq_iff in E. subst k'. intuition.
    + intuition.
    + rewrite IH. intuition.
Qed.

Lemma insert_key_HdRel (a k : string) (ks : list string) :
  HdRel key_lt a ks -> key_lt a k -> HdRel key_lt a (insert_key k ks).
Proof.
  intros H Hk. destruct ks as [|k' ks]; cbn.
  - now constructor.
  - destruct (String.compare k k'); constructor; trivial; now inversion H.
Qed.

Lemma insert_key_Sorted (k : string) (ks : list string) :
  Sorted key_lt ks -> Sorted key_lt (insert_key k ks).
Proof.
  induction 1 as [|k' ks Hs IH Hd]; cbn.
  - repeat constructor.
  - destruct (String.compare k k') eqn:E.
    + now constructor.
    + constructor; [now constructor | now constructor].
    + constructor; [exact IH|].
      apply insert_key_HdRel; [exact Hd | now apply key_gt_lt].
Qed.

(** The keys are strictly increasing. *)
Lemma group_keys_sorted (t : table) : StronglySorted key_lt (group_keys t).
Proof.
  apply Sorted_StronglySorted; [exact key_lt_trans|].
  unfold group_keys. induction (map algorithm t) as [|k ks IH]; cbn.
  - constructor.
  - now apply insert_key_Sorted.
Qed.

(** The keys are the values of the [algorithm] column. *)
Lemma group_keys_In (t : table) (k : string) :
  In k (group_keys t) <-> In k (map algorithm t).
Proof.
  unfold group_keys. induction (map algorithm t) as [|k' ks IH]; cbn.
  - reflexivity.
  - rewrite insert_key_In, IH. intuition.
Qed.

(** A strictly increasing list has no repetition. *)
Lemma sorted_NoDup (ks : list string) : StronglySorted key_lt ks -> NoDup ks.
Proof.
  induction 1 as [|k ks Hs IH Hall]; constructor; trivial.
  intros Hin. rewrite Forall_forall in Hall.
  exact (key_lt_irrefl k (Hall k Hin)).
Qed.




(** ** The combinations *)

(** [combinations l r] has as many elements as there are ways to choose [r]
    positions of [l]. *)
Lemma combinations_length {A : Type} (l : list A) :
  forall r, List.length (combinations l r) = binomial (List.length l) r.
Proof.
  induction l as [|x xs IH]; intros [|r]; cbn; try reflexivity.
  rewrite length_app, length_map, !IH. reflexivity.
Qed.

(** ** Groups of a restricted and of a filled table *)




Lemma fillna_algorithm (v : float) (t : table) :
  map algorithm (fillna v t) = map algorithm t.
Proof.
  unfold fillna. rewrite map_map. reflexivity.
Qed.

Lemma fillna_group_rows (v : float) (t : table) (k : string) :
  group_rows (fillna v t) k = fillna v (group_rows t k).
Proof.
  unfold group_rows, fillna. induction t as [|r t IH]; cbn; [reflexivity|].
  destruct (String.eqb (algorithm r) k); cbn; now rewrite IH.
Qed.

Lemma fillna_to_numpy (v : float) (m : metric) (t : table) :
  to_numpy m (fillna v t) = map (fill v) (to_numpy m t).
Proof.
  unfold to_numpy, fillna. rewrite !map_map. apply map_ext.
  intros r. now destruct m.
Qed.

(** The sample vectors of the filled table are the filled sample vectors. *)
Lemma fillna_sample_vectors (v : float) (m : metric) (t : table) :
  sample_vectors m (fillna v t) = map (map (fill v)) (sample_vectors m t).
Proof.
  unfold sample_vectors, groupby_algorithm, group_keys.
  rewrite fillna_algorithm, !map_map. apply map_ext. intros k. cbn [snd].
  now rewrite fillna_group_rows, fillna_to_numpy.
Qed.

(** ** The index pairs and the threshold *)

Lemma n_compare_value :
  combinations (range 4) 2 = [[0; 1]; [0; 2]; [0; 3]; [1; 2]; [1; 3]; [2; 3]].
Proof.
  reflexivity.
Qed.

Lemma new_alpha_value : new_alpha (combinations (range 4) 2) = (0.05 / 6)%float.
Proof.
  vm_compute. reflexivity.
Qed.

Lemma decisions_differ : same_decision <> different_decision.
Proof.
  unfold same_decision, different_decision. discriminate.
Qed.

(** The decision for a p-value that is a number, against a threshold that
    is one. *)
Lemma decide_number (nc : list (list nat)) (p : float) :
  PrimFloat.is_nan (new_alpha nc) = false -> PrimFloat.is_nan p = false ->
  decide nc p = if (p <=? new_alpha nc)%float then different_decision else same_decision.
Proof.
  intros Hn Hp. unfold decide.
  rewrite (ltb_negb_leb p (new_alpha nc) Hp Hn).
  now destruct (p <=? new_alpha nc)%float.
Qed.

(** The decision for a p-value that is not a number. *)
Lemma decide_nan (nc : list (list nat)) (p : float) :
  PrimFloat.is_nan p = true -> decide nc p = different_decision.
Proof.
  intros Hp. unfold decide. now rewrite ltb_nan_r.
Qed.

Lemma getitem_firstn {A : Type} (n i : nat) (l : list A) :
  i < n -> getitem (firstn n l) i = getitem l i.
Proof.
  intros H. unfold getitem. rewrite nth_error_firstn.
  apply Nat.ltb_lt in H. now rewrite H.
Qed.

Lemma getitem_In {A : Type} (l : list A) (i : nat) (x : A) :
  getitem l i = Returned x -> In x l.
Proof.
  unfold getitem. destruct (nth_error l i) eqn:E; [|discriminate].
  intros [= <-]. eapply nth_error_In, E.
Qed.

Section FirstFour.

Variable friedmanchisquare :
  list float -> list float -> list float -> list float -> outcome (float * float).
Variable wilcoxon : list float -> list float -> outcome (float * float).

#[local] Arguments combinations : simpl never.






End FirstFour.

(** * The claims *)

(** ** C1: the omnibus result and the pairwise tests *)

(** C1, as stated, fails: with the four algorithms of the notebook and an
    omnibus p-value of 0.4, which is not below 0.05, the section still prints
    the line of the omnibus test followed by six pairwise lines, and ends
    normally.  No line says that no significant difference was found. *)
Lemma posthoc_without_significance :
  (0.4 <? 0.05)%float = false /\
  (0.05 <=? 0.4)%float = true /\
  emitted (evaluate (friedman_const not_significant) (wilcoxon_const no_difference) Precision)
    (session (fillna 0 four))
  = [ FriedmanLine 1.5 0.4;
      PairLine ("ALS", "IALS") 0 1 same_decision;
      PairLine ("ALS", "II") 0 1 same_decision;
      PairLine ("ALS", "UU") 0 1 same_decision;
      PairLine ("IALS", "II") 0 1 same_decision;
      PairLine ("IALS", "UU") 0 1 same_decision;
      PairLine ("II", "UU") 0 1 same_decision ]%float /\
  snd (evaluate (friedman_const not_significant) (wilcoxon_const no_difference) Precision
         (session (fillna 0 four))) = Returned tt.
Proof.
  repeat split; vm_compute; reflexivity.
Qed.

(** C1, amended: when the omnibus call returns a p-value below 0.05, the
    section prints exactly one omnibus line, carrying the statistic and the
    p-value, and then runs the pairwise cell on what the first cell left.
    Every further line is a pairwise line, and there are six of them when
    the pairwise loop ends normally. *)
Theorem significant_omnibus_then_posthoc fr wx m g stat p :
  omnibus fr (sample_vectors m (results g)) = Returned (stat, p) ->
  (p <? 0.05)%float = true ->
  emitted (friedman_cell fr m) g = [FriedmanLine stat p] /\
  evaluate fr wx m g = posthoc_cell wx (fst (friedman_cell fr m g)) /\
  exists ls,
    emitted (evaluate fr wx m) g = FriedmanLine stat p :: ls /\
    forallb is_pair_line ls = true /\
    (snd (evaluate fr wx m g) = Returned tt -> List.length ls = 6).
Proof.
  intros Ho _. repeat split.
  - unfold emitted. rewrite friedman_cell_eq, Ho. cbn. apply skipn_length_app.
  - unfold evaluate, bind. rewrite friedman_cell_eq, Ho. reflexivity.
  - rewrite emitted_evaluate, outcome_evaluate. unfold report. rewrite Ho.
    set (nc := combinations (range 4) 2).
    pose proof (posthoc_report_pair_lines wx (sample_vectors m (results g))
                  (sample_names (results g)) nc nc) as Hp.
    pose proof (posthoc_report_returned wx (sample_vectors m (results g))
                  (sample_names (results g)) nc nc) as Hr.
    destruct (posthoc_report wx _ _ nc nc) as [ls o]. cbn in *.
    exists ls. repeat split; trivial.
    intros Ho'. apply Hr in Ho'. apply Forall2_length in Ho'.
    rewrite <- Ho'. reflexivity.
Qed.

(** The amended C1 on the notebook's four algorithms, with an omnibus
    p-value of 0.001. *)
Lemma significant_omnibus_then_posthoc_four :
  emitted (friedman_cell (friedman_const significant) Precision) (session (fillna 0 four))
  = [FriedmanLine 1.5 0.001]%float /\
  evaluate (friedman_const significant) (wilcoxon_const no_difference) Precision
    (session (fillna 0 four))
  = posthoc_cell (wilcoxon_const no_difference)
      (fst (friedman_cell (friedman_const significant) Precision (session (fillna 0 four)))) /\
  exists ls,
    emitted (evaluate (friedman_const significant) (wilcoxon_const no_difference) Precision)
      (session (fillna 0 four)) = FriedmanLine 1.5 0.001 :: ls /\
    forallb is_pair_line ls = true /\
    (snd (evaluate (friedman_const significant) (wilcoxon_const no_difference) Precision
            (session (fillna 0 four))) = Returned tt -> List.length ls = 6).
Proof.
  apply (significant_omnibus_then_posthoc (friedman_const significant)
           (wilcoxon_const no_difference) Precision (session (fillna 0 four))
           1.5%float 0.001%float); reflexivity.
Defined.

(** ** C2: samples whose differences are all zero *)

(** C2, as stated, fails: two samples that agree on every observation get an
    ordinary entry, or none at all.  When [wilcoxon] returns the largest
    p-value the decision is "same"; when it returns NaN the decision is
    "different"; when it rejects the samples, as SciPy releases did, the
    exception leaves [wilcox_bonf] and there is no entry. *)
Lemma zero_differences_not_reported :
  zero_differences twin twin = true /\
  snd (wilcox_bonf (wilcoxon_const no_difference) twin twin ("ALS", "IALS") posthoc_session)
  = Returned {| Pair := ("ALS", "IALS"); Statistics := 0; p_value := 1;
                Decision := same_decision |} /\
  snd (wilcox_bonf (wilcoxon_const undefined) twin twin ("ALS", "IALS") posthoc_session)
  = Returned {| Pair := ("ALS", "IALS"); Statistics := nan; p_value := nan;
                Decision := different_decision |} /\
  snd (wilcox_bonf (wilcoxon_checked no_difference) twin twin ("ALS", "IALS") posthoc_session)
  = Raised (ValueError
      "zero_method 'wilcox' and 'pratt' do not work if x - y is zero for all elements.").
Proof.
  repeat split; vm_compute; reflexivity.
Qed.

(** C2, amended: for every pair of samples, those whose differences are all
    zero included, [wilcox_bonf] has no outcome of its own.  It returns an
    entry exactly when [wilcoxon] returns; the entry carries the statistic
    and the p-value [wilcoxon] returned and one of the two decisions, "same"
    when the test [p > new_alpha] holds and "different" otherwise.  It
    raises what [wilcoxon] raises (or [ZeroDivisionError] when [n_compare] is
    empty), leaving the globals as they were. *)
Theorem wilcox_bonf_outcomes wx data1 data2 pr g :
  fst (wilcox_bonf wx data1 data2 pr g) = g /\
  match snd (wilcox_bonf wx data1 data2 pr g) with
  | Returned s =>
      wx data1 data2 = Returned (Statistics s, p_value s) /\
      Pair s = pr /\
      Decision s = (if (new_alpha (n_compare g) <? p_value s)%float
                    then same_decision else different_decision) /\
      (Decision s = same_decision \/ Decision s = different_decision)
  | Raised e =>
      wx data1 data2 = Raised e \/
      (e = ZeroDivisionError /\ n_compare g = [] /\ exists sp, wx data1 data2 = Returned sp)
  end.
Proof.
  rewrite wilcox_bonf_eq. cbn [fst snd]. split; [reflexivity|].
  unfold obind. destruct (wx data1 data2) as [e|[stat p]] eqn:W.
  - now left.
  - destruct (n_compare g) as [|c nc] eqn:N.
    + right. eauto.
    + cbn [Statistics p_value Pair Decision fst snd]. repeat split.
      unfold decide. destruct (_ <? _)%float; auto.
Qed.

(** ** C3: the pairs compared *)

(** C3, as stated, fails: with five algorithms and a significant omnibus
    result the section compares six pairs, not C(5,2) = 10, all of them
    among the first four identifiers in sorted order. *)
Lemma five_groups_six_pairs :
  group_keys five = ["ALS"; "IALS"; "II"; "Pop"; "UU"] /\
  binomial 5 2 = 10 /\
  (0.001 <? 0.05)%float = true /\
  snd (evaluate (friedman_const significant) (wilcoxon_const no_difference) Precision
         (session (fillna 0 five))) = Returned tt /\
  pairs_of (emitted (evaluate (friedman_const significant) (wilcoxon_const no_difference)
                       Precision) (session (fillna 0 five)))
  = [ ("ALS", "IALS"); ("ALS", "II"); ("ALS", "Pop");
      ("IALS", "II"); ("IALS", "Pop"); ("II", "Pop") ].
Proof.
  repeat split; vm_compute; reflexivity.
Qed.

(** The pairs printed by a pairwise loop that ends normally, over four
    names. *)
Lemma posthoc_report_pairs wx vals (a b c d : string) nc :
  snd (posthoc_report wx vals [a; b; c; d] nc (combinations (range 4) 2)) = Returned tt ->
  pairs_of (fst (posthoc_report wx vals [a; b; c; d] nc (combinations (range 4) 2)))
  = [(a, b); (a, c); (a, d); (b, c); (b, d); (c, d)].
Proof.
  intros H. apply posthoc_report_returned in H.
  rewrite n_compare_value in *.
  destruct (posthoc_report wx vals [a; b; c; d] nc _) as [ls o]. cbn [fst] in *.
  repeat match goal with
         | H : Forall2 _ (_ :: _) _ |- _ =>
             inversion H as [|? ? ? ? (? & Hs & ->) ?]; subst; clear H;
             apply compare_pair_returned in Hs;
             destruct Hs as (? & ? & ? & ? & ? & ? & ? & E0 & E1 & _ & _ & Ex & Ey & _ & ->);
             cbv in E0, E1; injection E0 as <-; injection E1 as <-;
             cbv in Ex, Ey; injection Ex as <-; injection Ey as <-
         | H : Forall2 _ [] _ |- _ => inversion H; subst; clear H
         end.
  reflexivity.
Qed.

(** C3, amended: for every input with exactly four algorithms, a section
    whose omnibus test is significant and whose pairwise loop ends normally
    prints exactly C(4,2) = 6 pairwise results: with [a < b < c < d] the
    identifiers in sorted order, the pairs are
    (a,b), (a,c), (a,d), (b,c), (b,d), (c,d), in this order, so each
    unordered pair occurs once, smaller identifier first. *)
Theorem four_groups_six_pairs fr wx m g stat p :
  List.length (group_keys (results g)) = 4 ->
  omnibus fr (sample_vectors m (results g)) = Returned (stat, p) ->
  (p <? 0.05)%float = true ->
  snd (evaluate fr wx m g) = Returned tt ->
  exists a b c d,
    group_keys (results g) = [a; b; c; d] /\
    key_lt a b /\ key_lt b c /\ key_lt c d /\
    pairs_of (emitted (evaluate fr wx m) g)
    = [(a, b); (a, c); (a, d); (b, c); (b, d); (c, d)] /\
    List.length (pairs_of (emitted (evaluate fr wx m) g))
    = binomial (List.length (group_keys (results g))) 2 /\
    NoDup (pairs_of (emitted (evaluate fr wx m) g)) /\
    (forall x y, In (x, y) (pairs_of (emitted (evaluate fr wx m) g)) -> key_lt x y).
Proof.
  intros Hk Ho _ Hr.
  pose proof (group_keys_sorted (results g)) as Hs.
  destruct (group_keys (results g)) as [|a [|b [|c [|d [|e rest]]]]] eqn:K;
    try discriminate Hk.
  exists a, b, c, d.
  inversion Hs as [|? ? Hs1 Ha]; subst. inversion Hs1 as [|? ? Hs2 Hb]; subst.
  inversion Hs2 as [|? ? Hs3 Hc]; subst.
  inversion Ha as [|? ? Hab Ha']; subst. inversion Ha' as [|? ? Hac Ha'']; subst.
  inversion Ha'' as [|? ? Had _]; subst.
  inversion Hb as [|? ? Hbc Hb']; subst. inversion Hb' as [|? ? Hbd _]; subst.
  inversion Hc as [|? ? Hcd _]; subst.
  assert (pairs_of (emitted (evaluate fr wx m) g)
          = [(a, b); (a, c); (a, d); (b, c); (b, d); (c, d)]) as Hp.
  { rewrite emitted_evaluate. rewrite outcome_evaluate in Hr.
    unfold report in *. rewrite Ho in *.
    rewrite sample_names_keys, K in *.
    pose proof (posthoc_report_pairs wx (sample_vectors m (results g)) a b c d
                  (combinations (range 4) 2)) as P.
    destruct (posthoc_report wx _ _ _ _) as [ls o]. cbn in *. auto. }
  rewrite Hp. repeat split; trivial.
  - repeat constructor; cbn; intros H;
      repeat match goal with
             | H : _ \/ _ |- _ => destruct H
             | H : (_, _) = (_, _) |- _ => inversion H; clear H; subst
             | H : False |- _ => destruct H
             end;
      eapply key_lt_irrefl; eassumption.
  - cbn. intros x y H.
    repeat match goal with
           | H : _ \/ _ |- _ => destruct H
           | H : (_, _) = (_, _) |- _ => injection H as <- <-
           | H : False |- _ => destruct H
           end; assumption.
Qed.

(** The scenario of C3: for the algorithms ALS, IALS, II and UU the pairs
    come out in the order (ALS,IALS), (ALS,II), (ALS,UU), (IALS,II),
    (IALS,UU), (II,UU). *)
Lemma four_groups_six_pairs_notebook :
  pairs_of (emitted (evaluate (friedman_const significant) (wilcoxon_const no_difference)
                       Precision) (session (fillna 0 four)))
  = [ ("ALS", "IALS"); ("ALS", "II"); ("ALS", "UU");
      ("IALS", "II"); ("IALS", "UU"); ("II", "UU") ].
Proof.
  destruct (four_groups_six_pairs (friedman_const significant)
              (wilcoxon_const no_difference) Precision (session (fillna 0 four))
              1.5%float 0.001%float eq_refl eq_refl eq_refl eq_refl)
    as (a & b & c & d & K & _ & _ & _ & P & _).
  vm_compute in K. injection K as <- <- <- <-. exact P.
Defined.

(** ** C4: the decision *)

(** C4, as stated, fails: [wilcoxon] can return a p-value that is not a
    number.  A NaN is not less than or equal to the adjusted threshold, yet
    the test [p > new_alpha] is false for it and the decision is
    "different". *)
Lemma nan_decided_different :
  (nan <=? new_alpha (n_compare posthoc_session))%float = false /\
  wilcox_bonf (wilcoxon_const (0, nan)%float) [0.5; 0.25]%float [0.25; 0.5]%float
    ("ALS", "IALS") posthoc_session
  = (posthoc_session,
     Returned {| Pair := ("ALS", "IALS"); Statistics := 0; p_value := nan;
                 Decision := different_decision |}).
Proof.
  split; vm_compute; reflexivity.
Qed.

(** C4, amended: in a pairwise comparison of the notebook, where
    [n_compare] holds the six index pairs, whenever [wilcoxon] returns a
    statistic and a p-value that is a number, [wilcox_bonf] returns the
    entry that carries this pair, statistic and p-value, and its decision
    is "different" if and only if the p-value is less than or equal to the
    adjusted threshold 0.05/6, and "same" if and only if it is not. *)
Theorem decision_by_threshold wx data1 data2 pr g stat p :
  n_compare g = combinations (range 4) 2 ->
  wx data1 data2 = Returned (stat, p) ->
  PrimFloat.is_nan p = false ->
  exists s,
    wilcox_bonf wx data1 data2 pr g = (g, Returned s) /\
    Pair s = pr /\ Statistics s = stat /\ p_value s = p /\
    new_alpha (n_compare g) = (0.05 / 6)%float /\
    (Decision s = different_decision <-> (p <=? 0.05 / 6)%float = true) /\
    (Decision s = same_decision <-> (p <=? 0.05 / 6)%float = false).
Proof.
  intros Hn Hw Hp. rewrite wilcox_bonf_eq, Hw. cbn [obind fst snd].
  destruct (n_compare g) as [|c nc] eqn:N;
    [rewrite n_compare_value in Hn; discriminate|].
  rewrite Hn. eexists. split; [reflexivity|]. cbn [Pair Statistics p_value Decision].
  do 3 (split; [reflexivity|]).
  split; [exact new_alpha_value|].
  rewrite decide_number by (trivial; vm_compute; reflexivity).
  rewrite new_alpha_value.
  pose proof decisions_differ as D.
  destruct (p <=? _)%float; split; split; intros H;
    congruence || reflexivity.
Qed.

(** The boundary of C4: a p-value equal to the adjusted threshold is
    decided "different". *)
Lemma decision_at_threshold :
  exists s,
    wilcox_bonf (wilcoxon_const (0, 0.05 / 6)%float) twin [0.5; 0.25; 0.125]%float
      ("ALS", "IALS") posthoc_session = (posthoc_session, Returned s) /\
    p_value s = (0.05 / 6)%float /\
    Decision s = different_decision.
Proof.
  destruct (decision_by_threshold (wilcoxon_const (0, 0.05 / 6)%float) twin
              [0.5; 0.25; 0.125]%float ("ALS", "IALS") posthoc_session
              0%float (0.05 / 6)%float eq_refl eq_refl eq_refl)
    as (s & E & _ & _ & P & _ & D & _).
  exists s. split; [exact E|]. split; [exact P|].
  apply D. reflexivity.
Defined.

(** ** C5: the adjusted threshold *)




(** ** C6: fewer than three algorithms *)

(** C6, as stated, fails: with a single algorithm the section returns no
    "not applicable" result.  The subscript [alg_vals[1]] of the omnibus call
    raises [IndexError]; nothing is printed. *)
Lemma single_algorithm_index_error :
  group_keys one = ["ALS"] /\
  evaluate (friedman_const significant) (wilcoxon_const no_difference) Precision (session one)
  = (mkGlobals one [[0.02; 0.01]%float] ["ALS"] [] [], Raised IndexError).
Proof.
  split; vm_compute; reflexivity.
Qed.

(** C6, amended: for every input with fewer than three algorithms the
    section ends with [IndexError], raised by a subscript of the omnibus
    call.  Neither stage runs: nothing is printed, and the outcome and the
    globals are the same whatever the two routines would have answered. *)
Theorem fewer_than_three_groups fr wx m g :
  List.length (group_keys (results g)) < 3 ->
  snd (evaluate fr wx m g) = Raised IndexError /\
  emitted (evaluate fr wx m) g = [] /\
  stdout (fst (evaluate fr wx m g)) = stdout g /\
  (forall fr' wx', evaluate fr' wx' m g = evaluate fr wx m g).
Proof.
  intros H.
  assert (List.length (group_keys (results g)) < 4) as H4 by lia.
  rewrite emitted_evaluate, outcome_evaluate. unfold report.
  rewrite omnibus_few by now rewrite sample_vectors_length.
  rewrite (evaluate_few fr wx m g H4). repeat split.
  intros fr' wx'. now rewrite (evaluate_few fr' wx' m g H4).
Qed.

(** The amended C6 on a table with a single algorithm. *)
Lemma fewer_than_three_groups_one :
  snd (evaluate (friedman_const significant) (wilcoxon_const no_difference) Ndcg
         (session one)) = Raised IndexError /\
  emitted (evaluate (friedman_const significant) (wilcoxon_const no_difference) Ndcg)
    (session one) = [] /\
  stdout (fst (evaluate (friedman_const significant) (wilcoxon_const no_difference) Ndcg
                 (session one))) = stdout (session one) /\
  (forall fr' wx',
      evaluate fr' wx' Ndcg (session one)
      = evaluate (friedman_const significant) (wilcoxon_const no_difference) Ndcg
          (session one)).
Proof.
  apply (fewer_than_three_groups (friedman_const significant)
           (wilcoxon_const no_difference) Ndcg (session one)).
  vm_compute. lia.
Defined.

(** ** C7: errors *)

(** C7, as stated, fails: in [tied] two algorithms agree on precision and
    differ on the other metrics.  With a [wilcoxon] that rejects samples whose
    differences are all zero, the error of the precision section leaves the
    notebook as an exception after one printed line; it is no result entry,
    and the ndcg section, which on its own ends normally with seven lines,
    is never run.  In [ragged] the samples have different lengths: the
    omnibus call of the first section raises and the notebook prints
    nothing at all. *)
Lemma degenerate_pair_ends_notebook :
  snd (notebook (friedman_checked significant) (wilcoxon_checked (3, 0.25)%float) ragged fresh)
  = Raised (ValueError "Unequal N in friedmanchisquare.  Aborting.") /\
  stdout (fst (notebook (friedman_checked significant) (wilcoxon_checked (3, 0.25)%float)
                 ragged fresh)) = [] /\
  snd (notebook (friedman_checked significant) (wilcoxon_checked (3, 0.25)%float) tied fresh)
  = Raised (ValueError
      "zero_method 'wilcox' and 'pratt' do not work if x - y is zero for all elements.") /\
  stdout (fst (notebook (friedman_checked significant) (wilcoxon_checked (3, 0.25)%float)
                 tied fresh))
  = [FriedmanLine 1.5 0.001]%float /\
  snd (evaluate (friedman_checked significant) (wilcoxon_checked (3, 0.25)%float) Ndcg
         (session (fillna 0 tied))) = Returned tt /\
  List.length (emitted (evaluate (friedman_checked significant)
                          (wilcoxon_checked (3, 0.25)%float) Ndcg)
                 (session (fillna 0 tied))) = 7.
Proof.
  repeat split; vm_compute; reflexivity.
Qed.

(** C7, amended: an error in a metric's section is an exception that ends
    the run.  The notebook runs the sections for precision, ndcg and
    recip_rank in this order on the filled table and stops at the first one
    that raises, with that exception and with the globals and the printed
    lines as that section left them; a later section runs only when all
    sections before it ended normally.  An empty table fails at once: the
    first section raises [IndexError] and nothing is printed. *)
Theorem first_error_ends_run fr wx computed g :
  let g0 := fst (compute_cell computed g) in
  let r1 := evaluate fr wx Precision g0 in
  let r2 := evaluate fr wx Ndcg (fst r1) in
  let r3 := evaluate fr wx RecipRank (fst r2) in
  results g0 = fillna 0 computed /\
  stdout g0 = stdout g /\
  notebook fr wx computed g =
    match snd r1 with
    | Raised _ => r1
    | Returned _ =>
        match snd r2 with
        | Raised _ => r2
        | Returned _ => r3
        end
    end /\
  (computed = [] ->
   snd (notebook fr wx computed g) = Raised IndexError /\
   stdout (fst (notebook fr wx computed g)) = stdout g).
Proof.
  cbv zeta. split; [reflexivity|]. split; [reflexivity|].
  assert (notebook fr wx computed g =
    match snd (evaluate fr wx Precision (fst (compute_cell computed g))) with
    | Raised _ => evaluate fr wx Precision (fst (compute_cell computed g))
    | Returned _ =>
        match snd (evaluate fr wx Ndcg
                     (fst (evaluate fr wx Precision (fst (compute_cell computed g))))) with
        | Raised _ =>
            evaluate fr wx Ndcg
              (fst (evaluate fr wx Precision (fst (compute_cell computed g))))
        | Returned _ =>
            evaluate fr wx RecipRank
              (fst (evaluate fr wx Ndcg
                      (fst (evaluate fr wx Precision (fst (compute_cell computed g))))))
        end
    end) as E.
  { unfold notebook. unfold bind at 1. cbn [compute_cell set_results fst].
    unfold bind at 1.
    destruct (evaluate fr wx Precision _) as [g1 [e|[]]]; cbn [fst snd]; [reflexivity|].
    unfold bind at 1.
    destruct (evaluate fr wx Ndcg g1) as [g2 [e|[]]]; cbn [fst snd]; reflexivity. }
  split; [exact E|].
  intros ->. rewrite E.
  set (g0 := fst (compute_cell [] g)).
  assert (List.length (group_keys (results g0)) < 4) as H by (cbn; lia).
  rewrite (evaluate_few fr wx Precision g0 H). cbn. split; reflexivity.
Qed.

(** ** C8: the four sample vectors *)



(** ** C9: missing values *)

(** C9: the "Compute Metrics" cell stores the computed table with every
    missing value replaced by zero, and the first cell of a section builds the
    sample vectors from that table: each entry is the computed value, or zero
    where the computed value is missing, and none is a NaN. *)
Theorem missing_values_are_zero fr computed m g :
  let g0 := fst (compute_cell computed g) in
  let g1 := fst (friedman_cell fr m g0) in
  results g0 = fillna 0 computed /\
  alg_vals g1 = map (map (fill 0)) (sample_vectors m computed) /\
  Forall (Forall (fun x => PrimFloat.is_nan x = false)) (alg_vals g1) /\
  (forall x, fill 0 x = if PrimFloat.is_nan x then 0%float else x).
Proof.
  cbv zeta.
  assert (alg_vals (fst (friedman_cell fr m (fst (compute_cell computed g))))
          = map (map (fill 0)) (sample_vectors m computed)) as E.
  { rewrite friedman_cell_eq. cbv zeta.
    destruct (omnibus fr _); cbn [fst alg_vals printed];
      cbn [compute_cell set_results fst results]; apply fillna_sample_vectors. }
  split; [reflexivity|]. split; [exact E|]. split; [|reflexivity].
  rewrite E. apply Forall_forall. intros v Hv.
  apply in_map_iff in Hv as (v' & <- & _).
  apply Forall_forall. intros x Hx.
  apply in_map_iff in Hx as (x' & <- & _).
  now apply fill_not_nan.
Qed.

(** ** C10: running a section again *)

(** C10: a section run twice in a row on the same table prints the same
    lines in the same order and ends the same way both times; what an
    earlier run left in [alg_vals], [alg_names] and [n_compare] has no
    effect, and the globals after the second run are those after the first
    with the lines printed once more. *)
Theorem evaluate_twice fr wx m g :
  let r1 := evaluate fr wx m g in
  let r2 := evaluate fr wx m (fst r1) in
  emitted (evaluate fr wx m) (fst r1) = emitted (evaluate fr wx m) g /\
  snd r2 = snd r1 /\
  fst r2 = printed (fst r1) (emitted (evaluate fr wx m) g) /\
  (forall g', results g' = results g ->
     emitted (evaluate fr wx m) g' = emitted (evaluate fr wx m) g /\
     snd (evaluate fr wx m g') = snd (evaluate fr wx m g)).
Proof.
  cbv zeta.
  rewrite !emitted_evaluate, !outcome_evaluate, !results_evaluate.
  repeat split.
  - rewrite (evaluate_eq fr wx m (fst (evaluate fr wx m g))).
    rewrite results_evaluate. rewrite (evaluate_eq fr wx m g).
    cbn [fst results alg_vals alg_names n_compare stdout printed].
    f_equal. destruct (omnibus fr _); reflexivity.
  - rewrite emitted_evaluate. now rewrite H.
  - rewrite outcome_evaluate. now rewrite H.
Qed.

(** ** A p-value that is not a number *)

(** X1: when [wilcoxon] returns a NaN p-value, the entry [wilcox_bonf]
    returns carries the decision "different": the test [p > new_alpha] is
    false for a NaN. *)
Theorem nan_p_value_is_different wx data1 data2 pr g s :
  snd (wilcox_bonf wx data1 data2 pr g) = Returned s ->
  PrimFloat.is_nan (p_value s) = true ->
  Decision s = different_decision.
Proof.
  intros Hs Hp. rewrite wilcox_bonf_eq in Hs. cbn [snd] in Hs. unfold obind in Hs.
  destruct (wx data1 data2) as [e|sp]; [discriminate|].
  destruct (n_compare g); [discriminate|].
  injection Hs as <-. cbn [Decision p_value] in *. now apply decide_nan.
Qed.

(** X1 on two samples that agree on every observation. *)
Lemma nan_p_value_is_different_twin :
  exists s,
    snd (wilcox_bonf (wilcoxon_const undefined) twin twin ("ALS", "IALS") posthoc_session)
    = Returned s /\
    zero_differences twin twin = true /\
    Decision s = different_decision.
Proof.
  eexists. split; [reflexivity|]. split; [reflexivity|].
  apply (nan_p_value_is_different (wilcoxon_const undefined) twin twin
           ("ALS", "IALS") posthoc_session); reflexivity.
Defined.

(** ** The names and the index pairs *)

(** X2: after the first cell of a section, [alg_names] lists the values of
    the [algorithm] column of [results], each once, in increasing order, and
    [alg_vals] has one vector per name. *)
Theorem alg_names_sorted fr m g :
  let g1 := fst (friedman_cell fr m g) in
  StronglySorted key_lt (alg_names g1) /\
  NoDup (alg_names g1) /\
  (forall k, In k (alg_names g1) <-> In k (map algorithm (results g))) /\
  List.length (alg_vals g1) = List.length (alg_names g1).
Proof.
  cbv zeta.
  assert (alg_names (fst (friedman_cell fr m g)) = group_keys (results g)
          /\ alg_vals (fst (friedman_cell fr m g)) = sample_vectors m (results g))
    as [En Ev].
  { rewrite friedman_cell_eq. cbv zeta.
    destruct (omnibus fr _); cbn [fst alg_names alg_vals printed];
      now rewrite sample_names_keys. }
  rewrite En, Ev. repeat split.
  - apply group_keys_sorted.
  - apply sorted_NoDup, group_keys_sorted.
  - now apply group_keys_In.
  - now apply group_keys_In.
  - apply sample_vectors_length.
Qed.

(** X3: [combinations(range(n), 2)] has C(n,2) index pairs; the notebook's
    [n_compare], with [n = 4], has six. *)
Theorem n_compare_count (n : nat) :
  List.length (combinations (range n) 2) = binomial n 2 /\
  List.length (combinations (range 4) 2) = 6.
Proof.
  split; [|reflexivity].
  rewrite combinations_length. unfold range. now rewrite length_seq.
Qed.

(** * Further properties of the cells *)

(** ** Where the printed numbers come from *)

Lemma sample_vectors_map (m : metric) (t : table) :
  sample_vectors m t = map (sample_of m t) (group_keys t).
Proof.
  unfold sample_vectors, groupby_algorithm. now rewrite map_map.
Qed.

Lemma getitem_map {A B : Type} (f : A -> B) (l : list A) (i : nat) (x : A) (y : B) :
  getitem l i = Returned x -> getitem (map f l) i = Returned y -> y = f x.
Proof.
  unfold getitem. rewrite nth_error_map.
  destruct (nth_error l i); cbn; congruence.
Qed.

Lemma getitem_firstn_In {A : Type} (l : list A) (n i : nat) (x : A) :
  i < n -> getitem l i = Returned x -> In x (firstn n l).
Proof.
  intros H E. rewrite <- (getitem_firstn n i l H) in E.
  eapply getitem_In, E.
Qed.

(** In a strictly increasing list an earlier element is smaller. *)
Lemma sorted_getitem (l : list string) :
  StronglySorted key_lt l ->
  forall i j a b, i < j -> getitem l i = Returned a -> getitem l j = Returned b ->
                  key_lt a b.
Proof.
  induction 1 as [|k ks Hs IH Hall]; intros i j a b Hij Ha Hb.
  - destruct i; discriminate.
  - destruct j as [|j]; [lia|]. rewrite Forall_forall in Hall.
    destruct i as [|i].
    + cbn in Ha. injection Ha as <-. apply Hall.
      eapply (getitem_In ks j), Hb.
    + apply (IH i j); trivial. lia.
Qed.

Lemma n_compare_In (idx : list nat) :
  In idx (combinations (range 4) 2) ->
  exists i j, idx = [i; j] /\ i < j /\ j < 4.
Proof.
  rewrite n_compare_value. cbn.
  intros H. repeat destruct H as [<-|H]; try contradiction;
    eexists; eexists; (split; [reflexivity|lia]).
Qed.

(** X4: every pairwise line names two of the four smallest identifiers,
    the smaller one first, and carries what [wilcoxon] returned for the
    sample vectors of these two algorithms, in this order. *)
Theorem pairwise_line_provenance fr wx m g a b stat p d :
  In (PairLine (a, b) stat p d) (emitted (evaluate fr wx m) g) ->
  In a (firstn 4 (group_keys (results g))) /\
  In b (firstn 4 (group_keys (results g))) /\
  key_lt a b /\
  wx (sample_of m (results g) a) (sample_of m (results g) b) = Returned (stat, p).
Proof.
  rewrite emitted_evaluate. unfold report.
  destruct (omnibus fr _) as [e|sp]; [contradiction|].
  set (nc := combinations (range 4) 2).
  pose proof (posthoc_report_lines wx (sample_vectors m (results g))
                (sample_names (results g)) nc nc) as Hl.
  destruct (posthoc_report wx _ _ nc nc) as [ls o]. cbn [fst] in *.
  intros [H|H]; [discriminate|].
  destruct (Hl _ H) as (idx & s & Hidx & Hs & E).
  apply n_compare_In in Hidx as (i & j & -> & Hij & Hj).
  apply compare_pair_returned in Hs
    as (i' & j' & d1 & d2 & a' & b' & sp' & E0 & E1 & V1 & V2 & N1 & N2 & W & ->).
  cbv in E0, E1. injection E0 as <-. injection E1 as <-.
  injection E as -> -> -> -> _.
  rewrite sample_names_keys in N1, N2. rewrite sample_vectors_map in V1, V2.
  rewrite (getitem_map _ _ _ _ _ N1 V1), (getitem_map _ _ _ _ _ N2 V2) in W.
  repeat split.
  - apply (getitem_firstn_In _ 4 i); trivial. lia.
  - apply (getitem_firstn_In _ 4 j); trivial.
  - apply (sorted_getitem _ (group_keys_sorted (results g)) i j); trivial.
  - rewrite W. now destruct sp'.
Qed.

Lemma pairwise_line_provenance_four :
  In "ALS" (firstn 4 (group_keys (results (session (fillna 0 four))))) /\
  In "II" (firstn 4 (group_keys (results (session (fillna 0 four))))) /\
  key_lt "ALS" "II" /\
  wilcoxon_checked (3, 0.25)%float
    (sample_of Ndcg (results (session (fillna 0 four))) "ALS")
    (sample_of Ndcg (results (session (fillna 0 four))) "II") = Returned (3, 0.25)%float.
Proof.
  apply (pairwise_line_provenance (friedman_checked significant)
           (wilcoxon_checked (3, 0.25)%float) Ndcg (session (fillna 0 four))
           "ALS" "II" 3%float 0.25%float same_decision).
  vm_compute. tauto.
Defined.

(** X5: an omnibus line is printed only when there are at least four
    algorithms, and it carries what [friedmanchisquare] returned for the
    sample vectors of the four smallest identifiers, in increasing order. *)
Theorem omnibus_line_provenance fr wx m g stat p :
  In (FriedmanLine stat p) (emitted (evaluate fr wx m) g) ->
  exists k0 k1 k2 k3 rest,
    group_keys (results g) = k0 :: k1 :: k2 :: k3 :: rest /\
    fr (sample_of m (results g) k0) (sample_of m (results g) k1)
       (sample_of m (results g) k2) (sample_of m (results g) k3) = Returned (stat, p).
Proof.
  rewrite emitted_evaluate. unfold report. rewrite sample_vectors_map.
  destruct (omnibus fr _) as [e|sp] eqn:O; [contradiction|].
  pose proof (posthoc_report_pair_lines wx (map (sample_of m (results g)) (group_keys (results g)))
                (sample_names (results g)) (combinations (range 4) 2)
                (combinations (range 4) 2)) as Hp.
  destruct (posthoc_report wx _ _ _ _) as [ls o]. cbn [fst] in *.
  intros [H|H].
  - injection H as <- <-.
    destruct (group_keys (results g)) as [|k0 [|k1 [|k2 [|k3 rest]]]];
      try discriminate O.
    exists k0, k1, k2, k3, rest. split; [reflexivity|].
    cbn in O. rewrite O. now destruct sp.
  - rewrite forallb_forall in Hp. apply Hp in H. discriminate H.
Qed.

Lemma omnibus_line_provenance_five :
  exists k0 k1 k2 k3 rest,
    group_keys (results (session (fillna 0 five))) = k0 :: k1 :: k2 :: k3 :: rest /\
    friedman_checked significant
      (sample_of Precision (results (session (fillna 0 five))) k0)
      (sample_of Precision (results (session (fillna 0 five))) k1)
      (sample_of Precision (results (session (fillna 0 five))) k2)
      (sample_of Precision (results (session (fillna 0 five))) k3)
    = Returned (1.5, 0.001)%float.
Proof.
  apply (omnibus_line_provenance (friedman_checked significant)
           (wilcoxon_checked (3, 0.25)%float) Precision (session (fillna 0 five))
           1.5%float 0.001%float).
  vm_compute. tauto.
Defined.

(** ** What is printed when the pairwise loop fails *)

(** The pairs the loop prints are a prefix of the pairs it was to compare;
    all of them when it ends normally, fewer when it raises. *)
Lemma posthoc_report_prefix wx vals names nc (pairs : list (list nat)) :
  exists n,
    pairs_of (fst (posthoc_report wx vals names nc pairs))
    = firstn n (map (fun idx => (nth (nth 0 idx 0) names EmptyString,
                                 nth (nth 1 idx 0) names EmptyString)) pairs) /\
    match snd (posthoc_report wx vals names nc pairs) with
    | Returned _ => n = List.length pairs
    | Raised _ => n < List.length pairs
    end.
Proof.
  induction pairs as [|idx rest (n & IHp & IHo)]; cbn [posthoc_report].
  - exists 0. split; reflexivity.
  - destruct (compare_pair wx vals names nc idx) as [e|s] eqn:E.
    + exists 0. split; [reflexivity | cbn; lia].
    + destruct (posthoc_report wx vals names nc rest) as [ls o]. cbn [fst snd] in *.
      exists (S n). split.
      * apply compare_pair_returned in E
          as (i & j & d1 & d2 & a & b & sp & E0 & E1 & _ & _ & Na & Nb & _ & ->).
        cbn [pairs_of flat_map line_of Pair app map firstn]. fold (pairs_of ls).
        rewrite IHp. f_equal. unfold getitem in *.
        destruct (nth_error idx 0) eqn:I0; [|discriminate]. injection E0 as ->.
        destruct (nth_error idx 1) eqn:I1; [|discriminate]. injection E1 as ->.
        rewrite (nth_error_nth _ _ 0 I0), (nth_error_nth _ _ 0 I1).
        destruct (nth_error names i) eqn:Ni; [|discriminate]. injection Na as ->.
        destruct (nth_error names j) eqn:Nj; [|discriminate]. injection Nb as ->.
        now rewrite (nth_error_nth _ _ EmptyString Ni), (nth_error_nth _ _ EmptyString Nj).
      * destruct o; cbn; lia.
Qed.

(** X6: whatever happens, the pairs on the pairwise lines of a section are
    the first [n] of the combinations of the four smallest identifiers, in
    order: all six when the section ends normally, and fewer, those compared
    before the failure, when it raises. *)
Theorem printed_pairs_are_a_prefix fr wx m g :
  exists n,
    pairs_of (emitted (evaluate fr wx m) g)
    = firstn n (map as_pair (combinations (firstn 4 (group_keys (results g))) 2)) /\
    match snd (evaluate fr wx m g) with
    | Returned _ => n = 6
    | Raised _ => n < 6
    end.
Proof.
  rewrite emitted_evaluate, outcome_evaluate. unfold report.
  destruct (omnibus fr _) as [e|sp] eqn:O.
  - exists 0. split; [reflexivity | cbn; lia].
  - destruct (posthoc_report_prefix wx (sample_vectors m (results g))
                (sample_names (results g)) (combinations (range 4) 2)
                (combinations (range 4) 2)) as (n & Hp & Ho).
    destruct (posthoc_report wx _ _ _ _) as [ls o]. cbn [fst snd] in *.
    exists n. split; [|exact Ho].
    cbn [pairs_of flat_map app]. fold (pairs_of ls). rewrite Hp.
    rewrite sample_names_keys. rewrite sample_vectors_map in O.
    destruct (group_keys (results g)) as [|k0 [|k1 [|k2 [|k3 rest]]]];
      try discriminate O.
    reflexivity.
Qed.

(** ** The groups *)

Lemma flat_map_nil {A B : Type} (l : list A) : flat_map (fun _ : A => @nil B) l = [].
Proof.
  induction l; auto.
Qed.

Lemma flat_map_same {A B : Type} (f g : A -> list B) (l : list A) :
  (forall x, In x l -> f x = g x) -> flat_map f l = flat_map g l.
Proof.
  induction l as [|x l IH]; intros H; cbn; [reflexivity|].
  rewrite (H x (or_introl eq_refl)), IH; auto.
  intros y Hy. apply H. now right.
Qed.

Lemma group_rows_cons (r : row) (t : table) (k : string) :
  group_rows (r :: t) k
  = if String.eqb (algorithm r) k then r :: group_rows t k else group_rows t k.
Proof.
  reflexivity.
Qed.

(** The groups of distinct keys that cover the table are a rearrangement
    of its rows. *)
Lemma groups_permutation (keys : list string) (t : table) :
  NoDup keys -> (forall r, In r t -> In (algorithm r) keys) ->
  Permutation (flat_map (group_rows t) keys) t.
Proof.
  intros Hnd. induction t as [|r t IH]; intros Hin.
  - unfold group_rows. cbn. now rewrite flat_map_nil.
  - destruct (in_split (algorithm r) keys (Hin r (or_introl eq_refl)))
      as (k1 & k2 & ->).
    assert (forall ks, ~ In (algorithm r) ks ->
                       flat_map (group_rows (r :: t)) ks = flat_map (group_rows t) ks) as Hout.
    { intros ks Hn. apply flat_map_same. intros k Hk. rewrite group_rows_cons.
      destruct (String.eqb_spec (algorithm r) k); [subst; contradiction | reflexivity]. }
    apply NoDup_remove in Hnd as Hrm. destruct Hrm as [_ Hnot].
    rewrite flat_map_app. cbn [flat_map].
    rewrite group_rows_cons, String.eqb_refl.
    rewrite !Hout by (intros H; apply Hnot, in_or_app; auto).
    cbn [app]. apply Permutation_sym, Permutation_cons_app, Permutation_sym.
    specialize (IH (fun r' H' => Hin r' (or_intror H'))).
    now rewrite flat_map_app in IH.
Qed.

(** X7: grouping by algorithm loses and repeats no observation: the groups
    taken together are a rearrangement of the rows of the table, each group
    keeps the order of the table, and the sample vectors of a metric have as
    many entries in all as the table has rows. *)
Theorem groups_partition_the_table (m : metric) (t : table) :
  Permutation (List.concat (map snd (groupby_algorithm t))) t /\
  (forall k data, In (k, data) (groupby_algorithm t) ->
                  data = filter (fun r => String.eqb (algorithm r) k) t) /\
  list_sum (map (@List.length float) (sample_vectors m t)) = List.length t.
Proof.
  assert (Permutation (List.concat (map snd (groupby_algorithm t))) t) as P.
  { unfold groupby_algorithm. rewrite map_map. cbn [snd].
    rewrite <- flat_map_concat_map. apply groups_permutation.
    - apply sorted_NoDup, group_keys_sorted.
    - intros r Hr. apply group_keys_In, in_map, Hr. }
  split; [exact P|]. split.
  - unfold groupby_algorithm. intros k data H.
    apply in_map_iff in H as (k' & [= <- <-] & _). reflexivity.
  - apply Permutation_length in P. rewrite <- P. clear P.
    unfold sample_vectors, to_numpy. rewrite map_map.
    induction (groupby_algorithm t) as [|[k d] l IH]; [reflexivity|].
    cbn [map List.concat snd]. rewrite length_app, length_map, <- IH.
    reflexivity.
Qed.

(** ** A whole run *)

Section Run.

Variable fr : list float -> list float -> list float -> list float -> outcome (float * float).
Variable wx : list float -> list float -> outcome (float * float).

(** A section that ends normally printed one omnibus line and six pairwise
    lines. *)
Lemma report_returned (m : metric) (t : table) :
  snd (report fr wx m t) = Returned tt ->
  exists stat p ls,
    fst (report fr wx m t) = FriedmanLine stat p :: ls /\
    List.length ls = 6 /\ forallb is_pair_line ls = true.
Proof.
  unfold report. destruct (omnibus fr _) as [e|[stat p]]; [discriminate|].
  pose proof (posthoc_report_returned wx (sample_vectors m t) (sample_names t)
                (combinations (range 4) 2) (combinations (range 4) 2)) as Hr.
  pose proof (posthoc_report_pair_lines wx (sample_vectors m t) (sample_names t)
                (combinations (range 4) 2) (combinations (range 4) 2)) as Hp.
  destruct (posthoc_report wx _ _ _ _) as [ls o]. cbn [fst snd] in *.
  intros Ho. exists stat, p, ls. repeat split; trivial.
  apply Hr, Forall2_length in Ho. now rewrite <- Ho.
Qed.

(** The sections of the notebook, one after the other, on the state the
    one before left. *)
Lemma notebook_steps (computed : table) (g : globals) :
  notebook fr wx computed g =
  match snd (evaluate fr wx Precision (fst (compute_cell computed g))) with
  | Raised _ => evaluate fr wx Precision (fst (compute_cell computed g))
  | Returned _ =>
      match snd (evaluate fr wx Ndcg
                   (fst (evaluate fr wx Precision (fst (compute_cell computed g))))) with
      | Raised _ =>
          evaluate fr wx Ndcg
            (fst (evaluate fr wx Precision (fst (compute_cell computed g))))
      | Returned _ =>
          evaluate fr wx RecipRank
            (fst (evaluate fr wx Ndcg
                    (fst (evaluate fr wx Precision (fst (compute_cell computed g))))))
      end
  end.
Proof.
  unfold notebook. unfold bind at 1. cbn [compute_cell set_results fst].
  unfold bind at 1.
  destruct (evaluate fr wx Precision _) as [g1 [e|[]]]; cbn [fst snd]; [reflexivity|].
  unfold bind at 1.
  destruct (evaluate fr wx Ndcg g1) as [g2 [e|[]]]; cbn [fst snd]; reflexivity.
Qed.

Lemma stdout_evaluate (m : metric) (g : globals) :
  stdout (fst (evaluate fr wx m g)) = stdout g ++ fst (report fr wx m (results g)).
Proof.
  now rewrite evaluate_eq.
Qed.

(** X8: a run of the notebook that ends normally has printed twenty-one
    lines after those already there: for precision, then ndcg, then
    recip_rank, the omnibus line of the metric followed by its six pairwise
    lines, all computed from the filled table. *)
Theorem complete_run_output (computed : table) (g : globals) :
  snd (notebook fr wx computed g) = Returned tt ->
  stdout (fst (notebook fr wx computed g))
  = stdout g ++ fst (report fr wx Precision (fillna 0 computed))
             ++ fst (report fr wx Ndcg (fillna 0 computed))
             ++ fst (report fr wx RecipRank (fillna 0 computed)) /\
  List.length (emitted (notebook fr wx computed) g) = 21 /\
  (forall m, exists stat p ls,
      fst (report fr wx m (fillna 0 computed)) = FriedmanLine stat p :: ls /\
      List.length ls = 6 /\ forallb is_pair_line ls = true).
Proof.
  unfold emitted. rewrite notebook_steps.
  set (g0 := fst (compute_cell computed g)).
  assert (results g0 = fillna 0 computed /\ stdout g0 = stdout g) as [R0 S0]
    by (split; reflexivity).
  destruct (snd (evaluate fr wx Precision g0)) as [e|[]] eqn:O1; [now rewrite O1|].
  destruct (snd (evaluate fr wx Ndcg (fst (evaluate fr wx Precision g0))))
    as [e|[]] eqn:O2; [now rewrite O2|].
  intros O3.
  rewrite outcome_evaluate in O1, O2, O3.
  rewrite R0 in O1. rewrite results_evaluate, R0 in O2.
  rewrite !results_evaluate, R0 in O3.
  rewrite !stdout_evaluate, !results_evaluate, R0, S0.
  destruct (report_returned Precision _ O1) as (s1 & p1 & l1 & E1 & L1 & P1).
  destruct (report_returned Ndcg _ O2) as (s2 & p2 & l2 & E2 & L2 & P2).
  destruct (report_returned RecipRank _ O3) as (s3 & p3 & l3 & E3 & L3 & P3).
  split; [now rewrite <- !app_assoc|]. split.
  - rewrite <- !app_assoc, skipn_length_app, E1, E2, E3.
    rewrite !length_app. cbn [List.length]. lia.
  - intros [| |]; eauto 6.
Qed.

(** X9: whatever the outcome, after the notebook [results] is the computed
    table with its missing values filled, and the lines printed before the
    run are still there, first. *)
Theorem run_keeps_results (computed : table) (g : globals) :
  results (fst (notebook fr wx computed g)) = fillna 0 computed /\
  stdout (fst (notebook fr wx computed g))
  = stdout g ++ emitted (notebook fr wx computed) g.
Proof.
  unfold emitted. rewrite notebook_steps.
  set (g0 := fst (compute_cell computed g)).
  assert (results g0 = fillna 0 computed /\ stdout g0 = stdout g) as [R0 S0]
    by (split; reflexivity).
  destruct (snd (evaluate fr wx Precision g0)) as [e|[]];
    [| destruct (snd (evaluate fr wx Ndcg (fst (evaluate fr wx Precision g0))))
         as [e|[]] ];
    rewrite !results_evaluate, !stdout_evaluate, ?results_evaluate, R0, S0;
    rewrite <- ?app_assoc, skipn_length_app; split; reflexivity.
Qed.

End Run.

Lemma complete_run_output_four :
  stdout (fst (notebook (friedman_checked significant) (wilcoxon_checked (3, 0.25)%float)
                 four fresh))
  = stdout fresh
    ++ fst (report (friedman_checked significant) (wilcoxon_checked (3, 0.25)%float)
              Precision (fillna 0 four))
    ++ fst (report (friedman_checked significant) (wilcoxon_checked (3, 0.25)%float)
              Ndcg (fillna 0 four))
    ++ fst (report (friedman_checked significant) (wilcoxon_checked (3, 0.25)%float)
              RecipRank (fillna 0 four)) /\
  List.length (emitted (notebook (friedman_checked significant)
                          (wilcoxon_checked (3, 0.25)%float) four) fresh) = 21.
Proof.
  destruct (complete_run_output (friedman_checked significant)
              (wilcoxon_checked (3, 0.25)%float) four fresh eq_refl) as (H1 & H2 & _).
  split; assumption.
Defined.

(** ** Filling twice *)

Lemma fill_fill (v x : float) : fill v (fill v x) = fill v x.
Proof.
  unfold fill. destruct (PrimFloat.is_nan x) eqn:E.
  - now destruct (PrimFloat.is_nan v).
  - now rewrite E.
Qed.

(** X10: [fillna] touches values only: the filled table has the same rows
    in the same order with the same dataset, algorithm and user, hence the
    same groups, and filling a filled table changes nothing. *)
Theorem fillna_keeps_shape (v : float) (t : table) :
  map (fun r => (dataset r, algorithm r, user r)) (fillna v t)
  = map (fun r => (dataset r, algorithm r, user r)) t /\
  group_keys (fillna v t) = group_keys t /\
  (forall k, group_rows (fillna v t) k = fillna v (group_rows t k)) /\
  fillna v (fillna v t) = fillna v t.
Proof.
  repeat split.
  - unfold fillna. now rewrite map_map.
  - unfold group_keys. now rewrite fillna_algorithm.
  - intros k. apply fillna_group_rows.
  - unfold fillna. rewrite map_map. apply map_ext. intros r. cbn.
    now rewrite !fill_fill.
Qed.

(** ** Names and patterns *)

Lemma split_not_nil (sep : ascii) (s : string) : split sep s <> [].
Proof.
  destruct s as [|c s]; cbn; [discriminate|].
  destruct (Ascii.eqb c sep); [discriminate|].
  destruct (split sep s); discriminate.
Qed.

(** A name without the separator is its own single piece. *)
Lemma split_literal (sep : ascii) (s : string) :
  has_char (fun c => Ascii.eqb c sep) s = false -> split sep s = [s].
Proof.
  induction s as [|c s IH]; cbn; [reflexivity|].
  intros H. apply orb_false_iff in H as [Hc Hs].
  now rewrite Hc, (IH Hs).
Qed.

(** The first separator ends the first piece. *)
Lemma split_app (sep : ascii) (d rest : string) :
  has_char (fun c => Ascii.eqb c sep) d = false ->
  split sep (d ++ String sep rest)%string = d :: split sep rest.
Proof.
  induction d as [|c d IH]; cbn.
  - intros _. now rewrite Ascii.eqb_refl.
  - intros H. apply orb_false_iff in H as [Hc Hd].
    now rewrite Hc, (IH Hd).
Qed.

(** What follows a separator has no part in the first piece. *)
Lemma split_first_app (sep : ascii) (x y : string) :
  nth 0 (split sep (x ++ String sep y)%string) EmptyString = nth 0 (split sep x) EmptyString.
Proof.
  induction x as [|c x IH]; cbn.
  - now rewrite Ascii.eqb_refl.
  - destruct (Ascii.eqb c sep); [reflexivity|].
    pose proof (split_not_nil sep (x ++ String sep y)%string) as N1.
    pose proof (split_not_nil sep x) as N2.
    destruct (split sep (x ++ String sep y)%string); [contradiction|].
    destruct (split sep x); [contradiction|].
    cbn in *. now rewrite IH.
Qed.

Lemma fnmatch_char (c : ascii) (q s : string) :
  is_magic c = false ->
  fnmatch (String c q) s
  = match s with
    | EmptyString => false
    | String a s' => Ascii.eqb a c && fnmatch q s'
    end.
Proof.
  unfold is_magic. intros H.
  apply orb_false_iff in H as [H _]. apply orb_false_iff in H as [H1 H2].
  cbn [fnmatch]. rewrite H1, H2. reflexivity.
Qed.

Lemma fnmatch_star (q s : string) :
  fnmatch (String "*" q) s
  = fnmatch q s
    || match s with
       | EmptyString => false
       | String _ s' => fnmatch (String "*" q) s'
       end.
Proof.
  destruct s; reflexivity.
Qed.

(** A pattern without [*], [?] and [[] matches itself only. *)
Lemma fnmatch_literal (q : string) :
  has_char is_magic q = false -> forall s, fnmatch q s = true <-> s = q.
Proof.
  induction q as [|c q IH]; intros H s.
  - destruct s; cbn; split; congruence.
  - cbn in H. apply orb_false_iff in H as [Hc Hq].
    rewrite (fnmatch_char c q s Hc). destruct s as [|a s].
    + split; discriminate.
    + rewrite andb_true_iff, Ascii.eqb_eq, (IH Hq). split.
      * intros [-> ->]. reflexivity.
      * intros [= -> ->]. auto.
Qed.

(** A star followed by a literal text: anything, then the text. *)
Lemma fnmatch_star_literal (q : string) :
  has_char is_magic q = false ->
  forall s, fnmatch (String "*" q) s = true <-> exists mid, s = (mid ++ q)%string.
Proof.
  intros Hq. induction s as [|a s IH]; rewrite fnmatch_star, orb_true_iff.
  - rewrite (fnmatch_literal q Hq). split.
    + intros [<-|H]; [now exists EmptyString | discriminate].
    + intros ([|c mid] & E); [now left | discriminate].
  - rewrite (fnmatch_literal q Hq), IH. split.
    + intros [<-|(mid & ->)]; [now exists EmptyString | now exists (String a mid)].
    + intros ([|c mid] & E); [now left|].
      right. exists mid. cbn in E. congruence.
Qed.

(** A literal text, a star, a literal text: the names that start with the
    first, end with the second, and have room for both. *)
Lemma fnmatch_affixes (p q : string) :
  has_char is_magic p = false -> has_char is_magic q = false ->
  forall s, fnmatch (p ++ String "*" q)%string s = true <->
            exists mid, s = (p ++ mid ++ q)%string.
Proof.
  intros Hp Hq. induction p as [|c p IH]; intros s; cbn [append].
  - apply (fnmatch_star_literal q Hq).
  - cbn in Hp. apply orb_false_iff in Hp as [Hc Hp'].
    rewrite (fnmatch_char c _ s Hc). destruct s as [|a s].
    + split; [discriminate | intros (mid & E); discriminate].
    + rewrite andb_true_iff, Ascii.eqb_eq, (IH Hp'). split.
      * intros [-> (mid & ->)]. now exists mid.
      * intros (mid & [= -> ->]). eauto.
Qed.

Lemma append_empty_r (s : string) : (s ++ "")%string = s.
Proof.
  induction s; cbn; congruence.
Qed.

Lemma append_assoc (a b c : string) : ((a ++ b) ++ c = a ++ b ++ c)%string.
Proof.
  induction a; cbn; congruence.
Qed.

Lemma has_char_app (f : ascii -> bool) (a b : string) :
  has_char f (a ++ b)%string = has_char f a || has_char f b.
Proof.
  induction a as [|c a IH]; cbn; [reflexivity|].
  now rewrite IH, orb_assoc.
Qed.

(** The entries matched by [d-*], for a dataset name [d] taken literally. *)
Lemma fnmatch_dataset (dataset s : string) :
  has_char is_magic dataset = false ->
  fnmatch (dataset ++ "-*")%string s = true <->
  exists rest, s = (dataset ++ "-" ++ rest)%string.
Proof.
  intros H.
  assert ((dataset ++ "-*" = (dataset ++ "-") ++ String "*" "")%string) as ->
    by now rewrite append_assoc.
  rewrite fnmatch_affixes; [| rewrite has_char_app, H; reflexivity | reflexivity].
  split; intros (r & ->); exists r; now rewrite append_assoc, ?append_empty_r.
Qed.

(** ** The loading cells *)

Lemma getitem_nth {A : Type} (l : list A) (i : nat) (x d : A) :
  getitem l i = Returned x -> nth i l d = x.
Proof.
  unfold getitem. destruct (nth_error l i) eqn:E; [|discriminate].
  intros [= <-]. now apply nth_error_nth.
Qed.

Lemma getitem_below {A : Type} (l : list A) (i : nat) (d : A) :
  i < List.length l -> getitem l i = Returned (nth i l d).
Proof.
  intros H. unfold getitem.
  destruct (nth_error l i) eqn:E.
  - now rewrite (nth_error_nth _ _ d E).
  - apply nth_error_None in E. lia.
Qed.

(** A name with a separator has at least two pieces. *)
Lemma split_two_pieces (sep : ascii) (x y : string) :
  2 <= List.length (split sep (x ++ String sep y)%string).
Proof.
  induction x as [|c x IH]; cbn.
  - rewrite Ascii.eqb_refl. pose proof (split_not_nil sep y).
    destruct (split sep y); [contradiction | cbn; lia].
  - destruct (Ascii.eqb c sep).
    + pose proof (split_not_nil sep (x ++ String sep y)%string).
      destruct (split sep (x ++ String sep y)%string); [contradiction | cbn; lia].
    + destruct (split sep (x ++ String sep y)%string); cbn in *; lia.
Qed.

Section LoadingFacts.

Variable F : Type.
Variable A : Type.
Variable read_csv : F -> outcome (list A).

(** What one iteration does. *)
Lemma load_file_eq (fld : folder F) (file : string * F) (recs : list (list (labelled A))) :
  2 <= List.length (split "-" (name fld)) ->
  load_file F A read_csv fld file recs
  = obind (read_csv (snd file)) (fun rec => Returned (recs ++ [frame_of fld rec])).
Proof.
  intros H. unfold load_file, frame_of, labels. cbn [fst snd].
  rewrite (getitem_below _ 0 EmptyString) by lia.
  rewrite (getitem_below _ 1 EmptyString) by lia.
  reflexivity.
Qed.

Lemma load_file_returned fld file recs out :
  load_file F A read_csv fld file recs = Returned out ->
  exists rec, read_csv (snd file) = Returned rec /\ out = recs ++ [frame_of fld rec].
Proof.
  unfold load_file, frame_of, labels, obind. cbn [fst snd].
  destruct (read_csv (snd file)) as [|rec]; [discriminate|].
  destruct (getitem _ 0) as [|d] eqn:E0; [discriminate|].
  destruct (getitem _ 1) as [|a] eqn:E1; [discriminate|].
  intros [= <-]. exists rec. split; [reflexivity|].
  now rewrite (getitem_nth _ _ _ EmptyString E0), (getitem_nth _ _ _ EmptyString E1).
Qed.

Lemma load_files_returned fld matched :
  forall recs out,
    load_files F A read_csv fld matched recs = Returned out ->
    exists frames,
      out = recs ++ frames /\
      Forall2 (fun file frame =>
                 exists rec, read_csv (snd file) = Returned rec /\ frame = frame_of fld rec)
        matched frames.
Proof.
  induction matched as [|file rest IH]; intros recs out; cbn [load_files].
  - intros [= <-]. exists []. split; [now rewrite app_nil_r | constructor].
  - unfold obind at 1.
    destruct (load_file F A read_csv fld file recs) as [|recs'] eqn:E; [discriminate|].
    apply load_file_returned in E as (rec & R & ->).
    intros H. apply IH in H as (frames & -> & Hf).
    exists (frame_of fld rec :: frames). split; [now rewrite <- app_assoc|].
    constructor; eauto.
Qed.

Lemma load_dirs_returned pattern dirs :
  forall recs out,
    load_dirs F A read_csv pattern dirs recs = Returned out ->
    exists frames,
      out = recs ++ frames /\
      Forall2 (fun it frame =>
                 exists rec, read_csv (snd (snd it)) = Returned rec /\
                             frame = frame_of (fst it) rec)
        (matched_files pattern dirs) frames.
Proof.
  induction dirs as [|fld rest IH]; intros recs out; cbn [load_dirs].
  - intros [= <-]. exists []. split; [now rewrite app_nil_r | constructor].
  - unfold obind at 1.
    destruct (load_files F A read_csv fld _ recs) as [|recs'] eqn:E; [discriminate|].
    apply load_files_returned in E as (f1 & -> & H1).
    intros H. apply IH in H as (f2 & -> & H2).
    exists (f1 ++ f2). split; [now rewrite <- app_assoc|].
    unfold matched_files. cbn [flat_map]. apply Forall2_app; [|exact H2].
    clear -H1. induction H1; cbn; constructor; auto.
Qed.

Lemma load_files_raised fld matched :
  2 <= List.length (split "-" (name fld)) ->
  forall recs e,
    load_files F A read_csv fld matched recs = Raised e ->
    exists file, In file matched /\ read_csv (snd file) = Raised e.
Proof.
  intros H. induction matched as [|file rest IH]; intros recs e; cbn [load_files].
  - discriminate.
  - rewrite load_file_eq by exact H. unfold obind.
    destruct (read_csv (snd file)) as [e'|rec] eqn:R.
    + intros [= <-]. exists file. split; [now left | exact R].
    + intros H'. apply IH in H' as (file' & Hin & R').
      exists file'. split; [now right | exact R'].
Qed.

Lemma load_dirs_raised pattern dirs :
  Forall (fun fld => 2 <= List.length (split "-" (name fld))) dirs ->
  forall recs e,
    load_dirs F A read_csv pattern dirs recs = Raised e ->
    exists it, In it (matched_files pattern dirs) /\ read_csv (snd (snd it)) = Raised e.
Proof.
  induction 1 as [|fld rest Hfld Hrest IH]; intros recs e; cbn [load_dirs].
  - discriminate.
  - unfold obind at 1.
    destruct (load_files F A read_csv fld _ recs) as [e'|recs'] eqn:E.
    + intros [= <-]. apply load_files_raised in E as (file & Hin & R); [|exact Hfld].
      exists (fld, file). split; [|exact R].
      unfold matched_files. cbn [flat_map]. apply in_or_app. left.
      now apply in_map.
    + intros H'. apply IH in H' as (it & Hin & R).
      exists it. split; [|exact R].
      unfold matched_files. cbn [flat_map]. apply in_or_app. now right.
Qed.

(** Every folder of [dirs] has a name of at least two pieces. *)
Lemma dirs_cell_two_pieces (dataset : string) (root : list (folder F)) :
  has_char is_magic dataset = false ->
  Forall (fun fld => 2 <= List.length (split "-" (name fld))) (dirs_cell F dataset root).
Proof.
  intros H. apply Forall_forall. intros fld Hin.
  unfold dirs_cell, glob in Hin. apply filter_In in Hin as [_ Hm].
  apply (fnmatch_dataset dataset _ H) in Hm as (rest & ->).
  apply split_two_pieces.
Qed.

End LoadingFacts.

Lemma Forall2_In_r {X Y : Type} (P : X -> Y -> Prop) (l1 : list X) (l2 : list Y) (y : Y) :
  Forall2 P l1 l2 -> In y l2 -> exists x, In x l1 /\ P x y.
Proof.
  induction 1 as [|x y' l1 l2 Hp Hf IH]; cbn; [contradiction|].
  intros [<-|H]; [eauto|].
  destruct (IH H) as (x' & Hin & Hp'). eauto.
Qed.

Lemma matched_files_In {F : Type} (pattern : string) (dirs : list (folder F)) it :
  In it (matched_files pattern dirs) <->
  In (fst it) dirs /\ In (snd it) (files (fst it)) /\ fnmatch pattern (fst (snd it)) = true.
Proof.
  unfold matched_files, glob. rewrite in_flat_map. split.
  - intros (fld & Hfld & H). apply in_map_iff in H as (file & <- & Hfile).
    apply filter_In in Hfile as [H1 H2]. auto.
  - intros (H1 & H2 & H3). exists (fst it). split; [exact H1|].
    apply in_map_iff. exists (snd it). split; [now destruct it|].
    apply filter_In. auto.
Qed.

(** A piece holds no separator. *)
Lemma split_pieces (sep : ascii) (s : string) :
  Forall (fun piece => has_char (fun c => Ascii.eqb c sep) piece = false) (split sep s).
Proof.
  induction s as [|c s IH]; cbn.
  - repeat constructor.
  - destruct (Ascii.eqb c sep) eqn:E.
    + constructor; [reflexivity | exact IH].
    + destruct (split sep s) as [|piece pieces]; inversion IH; subst;
        constructor; cbn; try rewrite E; auto.
Qed.

Section LoadingCells.

Variable F : Type.
Variable A : Type.
Variable read_csv : F -> outcome (list A).

(** Where a loaded row comes from. *)
Lemma loaded_row_origin pattern dirs rows l :
  load F A read_csv pattern dirs = Returned rows -> In l rows ->
  exists fld file rec r,
    In fld dirs /\ In file (files fld) /\ fnmatch pattern (fst file) = true /\
    read_csv (snd file) = Returned rec /\ In r rec /\
    l = mkLabelled (fst (labels (name fld))) (snd (labels (name fld))) r.
Proof.
  unfold load, obind.
  destruct (load_dirs F A read_csv pattern dirs []) as [|out] eqn:E; [discriminate|].
  apply load_dirs_returned in E as (frames & -> & Hf). cbn [app].
  unfold concat_frames. destruct frames as [|f fs] eqn:Ef; [discriminate|].
  rewrite <- Ef in *. intros [= <-] Hl.
  apply in_concat in Hl as (frame & Hframe & Hl).
  destruct (Forall2_In_r _ _ _ _ Hf Hframe) as ([fld file] & Hit & rec & R & ->).
  apply matched_files_In in Hit as (H1 & H2 & H3). cbn [fst snd] in *.
  unfold frame_of in Hl. apply in_map_iff in Hl as (r & <- & Hr).
  exists fld, file, rec, r. auto 10.
Qed.

(** X11: when a loading cell returns, at least one file matched, every
    matched file was read, and the loaded table is the rows of these files,
    folder after folder in listing order and file after file within a
    folder, each row with the two labels of its folder. *)
Theorem loaded_table pattern dirs rows :
  load F A read_csv pattern dirs = Returned rows ->
  exists frames,
    rows = List.concat frames /\
    Forall2 (fun it frame =>
               exists rec, read_csv (snd (snd it)) = Returned rec /\
                           frame = frame_of (fst it) rec)
      (matched_files pattern dirs) frames /\
    0 < List.length (matched_files pattern dirs).
Proof.
  unfold load, obind.
  destruct (load_dirs F A read_csv pattern dirs []) as [|out] eqn:E; [discriminate|].
  apply load_dirs_returned in E as (frames & -> & Hf). cbn [app].
  unfold concat_frames. destruct frames as [|f fs] eqn:Ef; [discriminate|].
  rewrite <- Ef in *. intros [= <-]. exists frames. repeat split; trivial.
  apply Forall2_length in Hf. rewrite Hf, Ef. cbn. lia.
Qed.

(** X12: for a dataset name without pattern characters and without [/],
    a loading cell run on the folders of [dirs] fails in two ways only: no file matched and [pd.concat] raises [ValueError], or
    [pd.read_csv] raised on a matched file and its exception ends the cell.
    The two subscripts of the split folder name never raise. *)
Theorem loading_errors dataset root pattern e :
  has_char is_magic dataset = false ->
  has_char (fun c => Ascii.eqb c "/") dataset = false ->
  load F A read_csv pattern (dirs_cell F dataset root) = Raised e ->
  (matched_files pattern (dirs_cell F dataset root) = [] /\
   e = ValueError "No objects to concatenate") \/
  (exists fld file,
      In fld root /\ In file (files fld) /\ fnmatch pattern (fst file) = true /\
      read_csv (snd file) = Raised e).
Proof.
  intros Hd _. unfold load, obind.
  destruct (load_dirs F A read_csv pattern _ []) as [e'|out] eqn:E.
  - intros [= <-]. right.
    apply load_dirs_raised in E as ([fld file] & Hit & R);
      [| now apply dirs_cell_two_pieces].
    apply matched_files_In in Hit as (H1 & H2 & H3). cbn [fst snd] in *.
    unfold dirs_cell, glob in H1. apply filter_In in H1 as [H1 _].
    exists fld, file. auto.
  - apply load_dirs_returned in E as (frames & -> & Hf). cbn [app].
    unfold concat_frames. destruct frames; [|discriminate].
    intros [= <-]. left. split; [|reflexivity]. now inversion Hf.
Qed.

(** X13: for a dataset name without a hyphen (and without pattern
    characters and [/]), every loaded row carries
    the dataset name as its dataset label, and as its algorithm label what
    follows [dataset-] in the name of its folder, up to the next hyphen if
    there is one. *)
Theorem loaded_labels dataset root pattern rows :
  has_char is_magic dataset = false ->
  has_char (fun c => Ascii.eqb c "/") dataset = false ->
  has_char (fun c => Ascii.eqb c "-") dataset = false ->
  load F A read_csv pattern (dirs_cell F dataset root) = Returned rows ->
  Forall (fun l =>
            dataset_label l = dataset /\
            has_char (fun c => Ascii.eqb c "-") (algorithm_label l) = false /\
            exists fld rest,
              In fld root /\ name fld = (dataset ++ "-" ++ rest)%string /\
              algorithm_label l = nth 0 (split "-" rest) EmptyString)
    rows.
Proof.
  intros Hm _ Hh Hl. apply Forall_forall. intros l Hin.
  destruct (loaded_row_origin _ _ _ _ Hl Hin)
    as (fld & file & rec & r & Hfld & _ & _ & _ & _ & ->).
  unfold dirs_cell, glob in Hfld. apply filter_In in Hfld as [Hroot Hname].
  apply (fnmatch_dataset dataset _ Hm) in Hname as (rest & Hname).
  unfold labels. rewrite Hname.
  change (dataset ++ "-" ++ rest)%string with (dataset ++ String "-" rest)%string.
  rewrite (split_app "-" dataset rest Hh). cbn [fst snd nth dataset_label algorithm_label].
  split; [reflexivity|]. split; [|eauto].
  pose proof (split_pieces "-" rest) as P. pose proof (split_not_nil "-" rest) as N.
  destruct (split "-" rest); [contradiction|]. now inversion P.
Qed.

(** X14: for a dataset name with a hyphen, [d1-d2] with no hyphen in
    [d1] (and without pattern characters and [/]), the labels do not depend on the folder: every loaded row carries
    [d1] as its dataset label and the first piece of [d2] as its algorithm
    label, whatever algorithm its folder is named after. *)
Theorem hyphenated_dataset_labels d1 d2 root pattern rows :
  has_char is_magic (d1 ++ "-" ++ d2)%string = false ->
  has_char (fun c => Ascii.eqb c "/") (d1 ++ "-" ++ d2)%string = false ->
  has_char (fun c => Ascii.eqb c "-") d1 = false ->
  load F A read_csv pattern (dirs_cell F (d1 ++ "-" ++ d2)%string root) = Returned rows ->
  Forall (fun l => dataset_label l = d1 /\
                   algorithm_label l = nth 0 (split "-" d2) EmptyString) rows.
Proof.
  intros Hm _ Hh Hl. apply Forall_forall. intros l Hin.
  destruct (loaded_row_origin _ _ _ _ Hl Hin)
    as (fld & file & rec & r & Hfld & _ & _ & _ & _ & ->).
  unfold dirs_cell, glob in Hfld. apply filter_In in Hfld as [Hroot Hname].
  apply (fnmatch_dataset _ _ Hm) in Hname as (rest & Hname).
  unfold labels. rewrite Hname, append_assoc.
  change (d1 ++ ("-" ++ d2) ++ "-" ++ rest)%string
    with (d1 ++ String "-" (d2 ++ String "-" rest))%string.
  rewrite (split_app "-" d1 _ Hh). cbn [fst snd nth dataset_label algorithm_label].
  split; [reflexivity|]. apply split_first_app.
Qed.

(** X15: the test cell reads the files matched by [test-*.csv] in listing
    order and joins their rows; it raises [ValueError] when none matches,
    and otherwise the exception of the first file [pd.read_csv] fails on. *)
Theorem test_cell_outcome (split_dir : list (string * F)) :
  match test_cell F A read_csv split_dir with
  | Returned rows =>
      exists frames,
        rows = List.concat frames /\
        Forall2 (fun file frame => read_csv (snd file) = Returned frame)
          (glob fst "test-*.csv" split_dir) frames /\
        0 < List.length (glob fst "test-*.csv" split_dir)
  | Raised e =>
      (glob fst "test-*.csv" split_dir = [] /\ e = ValueError "No objects to concatenate") \/
      (exists before file after,
          glob fst "test-*.csv" split_dir = before ++ file :: after /\
          Forall (fun f => exists rec, read_csv (snd f) = Returned rec) before /\
          read_csv (snd file) = Raised e)
  end.
Proof.
  unfold test_cell.
  assert (forall matched test,
             match read_all F A read_csv matched test with
             | Returned out =>
                 exists frames, out = test ++ frames /\
                   Forall2 (fun file frame => read_csv (snd file) = Returned frame)
                     matched frames
             | Raised e =>
                 exists before file after,
                   matched = before ++ file :: after /\
                   Forall (fun f => exists rec, read_csv (snd f) = Returned rec) before /\
                   read_csv (snd file) = Raised e
             end) as H.
  { induction matched as [|file rest IH]; intros test; cbn [read_all].
    - exists []. split; [now rewrite app_nil_r | constructor].
    - unfold obind. destruct (read_csv (snd file)) as [e|rec] eqn:R.
      + exists [], file, rest. repeat split; trivial.
      + specialize (IH (test ++ [rec])).
        destruct (read_all F A read_csv rest (test ++ [rec])) as [e|out].
        * destruct IH as (before & f & after & -> & Hb & Hf).
          exists (file :: before), f, after. repeat split; trivial.
          constructor; eauto.
        * destruct IH as (frames & -> & Hf).
          exists (rec :: frames). split; [now rewrite <- app_assoc|].
          constructor; trivial. }
  specialize (H (glob fst "test-*.csv" split_dir) []).
  unfold obind.
  destruct (read_all F A read_csv _ []) as [e|out].
  - now right.
  - destruct H as (frames & -> & Hf). cbn [app].
    unfold concat_frames. destruct frames as [|f fs] eqn:Ef.
    + left. split; [now inversion Hf | reflexivity].
    + rewrite <- Ef in *. exists frames. repeat split; trivial.
      apply Forall2_length in Hf. rewrite Hf, Ef. cbn. lia.
Qed.

End LoadingCells.

(** X11 on [disk]: the recommendations of the two [ml100k] folders. *)
Lemma loaded_table_disk :
  exists frames,
    [ mkLabelled "ml100k" "ALS" 11; mkLabelled "ml100k" "ALS" 12;
      mkLabelled "ml100k" "ALS" 13; mkLabelled "ml100k" "II" 21 ]
    = List.concat frames /\
    List.length frames = 3.
Proof.
  destruct (loaded_table (list nat) nat read_rows "recs-*"
              (dirs_cell (list nat) "ml100k" disk) _ eq_refl) as (frames & E & Hf & _).
  exists frames. split; [exact E|].
  apply Forall2_length in Hf. now rewrite <- Hf.
Defined.

(** X12 on [disk]: the empty file of the [ml1m] folder. *)
Lemma loading_errors_disk :
  (matched_files "recs-*" (dirs_cell (list nat) "ml1m" disk) = [] /\
   ValueError "No columns to parse from file" = ValueError "No objects to concatenate") \/
  (exists fld file,
      In fld disk /\ In file (files fld) /\ fnmatch "recs-*" (fst file) = true /\
      read_nonempty (snd file) = Raised (ValueError "No columns to parse from file")).
Proof.
  apply (loading_errors (list nat) nat read_nonempty "ml1m" disk "recs-*"); reflexivity.
Defined.

(** X13 on [disk]. *)
Lemma loaded_labels_disk :
  exists rows,
    recs_cell (list nat) nat read_rows (dirs_cell (list nat) "ml100k" disk) = Returned rows /\
    map algorithm_label rows = ["ALS"; "ALS"; "ALS"; "II"] /\
    Forall (fun l =>
              dataset_label l = "ml100k" /\
              has_char (fun c => Ascii.eqb c "-") (algorithm_label l) = false /\
              exists fld rest,
                In fld disk /\ name fld = ("ml100k" ++ "-" ++ rest)%string /\
                algorithm_label l = nth 0 (split "-" rest) EmptyString)
      rows.
Proof.
  eexists. split; [reflexivity|]. split; [reflexivity|].
  apply (loaded_labels (list nat) nat read_rows "ml100k" disk "recs-*"); reflexivity.
Defined.

(** X14 on [hyphen_disk]: both folders are labelled with the algorithm
    "100k". *)
Lemma hyphenated_dataset_labels_disk :
  exists rows,
    recs_cell (list nat) nat read_rows (dirs_cell (list nat) "ml-100k" hyphen_disk)
    = Returned rows /\
    map payload rows = [11; 21; 22] /\
    Forall (fun l => dataset_label l = "ml" /\
                     algorithm_label l = nth 0 (split "-" "100k") EmptyString) rows.
Proof.
  eexists. split; [reflexivity|]. split; [reflexivity|].
  apply (hyphenated_dataset_labels (list nat) nat read_rows "ml" "100k" hyphen_disk "recs-*");
    reflexivity.
Defined.

(** X16: what the notebook's four patterns match.  For a dataset name
    without pattern characters and without [/], [dirs] holds the entries named [dataset-...]; the
    loops read the files named [recs-...], [pred-...] and [test-....csv]. *)
Theorem notebook_patterns (F : Type) (dataset : string) (root : list (folder F))
  (d : list (string * F)) :
  has_char is_magic dataset = false ->
  has_char (fun c => Ascii.eqb c "/") dataset = false ->
  (forall fld, In fld (dirs_cell F dataset root) <->
               In fld root /\ exists rest, name fld = (dataset ++ "-" ++ rest)%string) /\
  (forall file, In file (glob fst "recs-*" d) <->
                In file d /\ exists rest, fst file = ("recs-" ++ rest)%string) /\
  (forall file, In file (glob fst "pred-*" d) <->
                In file d /\ exists rest, fst file = ("pred-" ++ rest)%string) /\
  (forall file, In file (glob fst "test-*.csv" d) <->
                In file d /\ exists mid, fst file = ("test-" ++ mid ++ ".csv")%string).
Proof.
  intros H _. unfold dirs_cell, glob.
  split; [| split; [| split]]; intros x; rewrite filter_In.
  - rewrite (fnmatch_dataset dataset _ H). tauto.
  - pose proof (fnmatch_affixes "recs-" "" eq_refl eq_refl (fst x)) as P.
    cbn [append] in P. rewrite P.
    split; intros [? (r & E)]; (split; [assumption|]); exists r;
      rewrite ?append_empty_r in *; exact E.
  - pose proof (fnmatch_affixes "pred-" "" eq_refl eq_refl (fst x)) as P.
    cbn [append] in P. rewrite P.
    split; intros [? (r & E)]; (split; [assumption|]); exists r;
      rewrite ?append_empty_r in *; exact E.
  - pose proof (fnmatch_affixes "test-" ".csv" eq_refl eq_refl (fst x)) as P.
    cbn [append] in P. rewrite P. tauto.
Qed.

(** X16 on [disk] and on a split directory with one test file. *)
Lemma notebook_patterns_disk :
  In (mkFolder "ml100k-II" [("recs-1.csv", [21])]) (dirs_cell (list nat) "ml100k" disk) /\
  In ("test-3.csv", [5]) (glob fst "test-*.csv" [("train-3.csv", [4]); ("test-3.csv", [5])]).
Proof.
  destruct (notebook_patterns (list nat) "ml100k" disk
              [("train-3.csv", [4]); ("test-3.csv", [5])] eq_refl eq_refl)
    as (H1 & _ & _ & H4).
  split.
  - apply H1. split; [cbn; tauto | now exists "II"].
  - apply H4. split; [cbn; tauto | now exists "3"].
Defined.

(** ** The table of the bar chart *)

Lemma pltData_cons (r : row) (t : table) : pltData (r :: t) = stack_row r ++ pltData t.
Proof.
  reflexivity.
Qed.

Lemma plotted_app (k : string) (m : metric) (d1 d2 : list plt_row) :
  plotted k m (d1 ++ d2) = plotted k m d1 ++ plotted k m d2.
Proof.
  unfold plotted. now rewrite filter_app, map_app.
Qed.

(** The entries of one row for one algorithm and one metric. *)
Lemma plotted_stack_row (k : string) (m : metric) (r : row) :
  plotted k m (stack_row r)
  = if String.eqb (algorithm r) k
    then (if PrimFloat.is_nan (column m r) then [] else [column m r])
    else [].
Proof.
  unfold plotted, stack_row, kept_columns.
  destruct m; cbn [flat_map column column_name];
    destruct (PrimFloat.is_nan (precision r)), (PrimFloat.is_nan (recip_rank r)),
      (PrimFloat.is_nan (ndcg r));
    cbn [app filter map plt_algorithm plt_metric val];
    destruct (String.eqb (algorithm r) k); reflexivity.
Qed.

Lemma stack_row_count (r : row) :
  List.length (stack_row r)
  + List.length (filter (fun m => PrimFloat.is_nan (column m r)) kept_columns) = 3.
Proof.
  unfold stack_row, kept_columns. cbn [flat_map filter column].
  destruct (PrimFloat.is_nan (precision r)), (PrimFloat.is_nan (recip_rank r)),
    (PrimFloat.is_nan (ndcg r)); reflexivity.
Qed.

Lemma missing_cells_fillna (v : float) (t : table) :
  PrimFloat.is_nan v = false -> missing_cells (fillna v t) = 0.
Proof.
  intros Hv. unfold missing_cells, fillna. rewrite map_map.
  induction t as [|r t IH]; [reflexivity|].
  cbn [map]. change (list_sum (?x :: ?l)) with (x + list_sum l). rewrite IH.
  unfold kept_columns. cbn [filter column precision recip_rank ndcg].
  now rewrite !fill_not_nan.
Qed.

(** X17: the reshaped table holds one row per value of the three tested
    columns that is not missing, and no NaN; built from the filled table,
    as the notebook does, it holds exactly three rows per observation. *)
Theorem chart_rows (t : table) :
  List.length (pltData t) + missing_cells t = 3 * List.length t /\
  Forall (fun p => PrimFloat.is_nan (val p) = false) (pltData t) /\
  List.length (pltData (fillna 0 t)) = 3 * List.length (fillna 0 t) /\
  List.length (fillna 0 t) = List.length t.
Proof.
  assert (forall t', List.length (pltData t') + missing_cells t' = 3 * List.length t') as C.
  { induction t' as [|r t' IH]; [reflexivity|].
    rewrite pltData_cons, length_app. unfold missing_cells in *. cbn [map List.length].
    change (list_sum (?x :: ?l)) with (x + list_sum l).
    pose proof (stack_row_count r). lia. }
  split; [apply C|]. split; [|split].
  - apply Forall_forall. intros p Hp. unfold pltData in Hp.
    apply in_flat_map in Hp as (r & _ & Hp). unfold stack_row in Hp.
    apply in_flat_map in Hp as (m & _ & Hp).
    destruct (PrimFloat.is_nan (column m r)) eqn:E; [contradiction|].
    destruct Hp as [<-|[]]. exact E.
  - specialize (C (fillna 0 t)). rewrite missing_cells_fillna in C by reflexivity. lia.
  - unfold fillna. apply length_map.
Qed.

(** X18: for every algorithm and metric the values in the reshaped table
    are the sample vector the significance tests use, in the same order,
    without its missing values; built from the filled table, the two are
    equal. *)
Theorem chart_matches_samples (t : table) (k : string) (m : metric) :
  plotted k m (pltData t)
  = filter (fun x => negb (PrimFloat.is_nan x)) (sample_of m t k) /\
  plotted k m (pltData (fillna 0 t)) = sample_of m (fillna 0 t) k.
Proof.
  assert (forall t', plotted k m (pltData t')
                     = filter (fun x => negb (PrimFloat.is_nan x)) (sample_of m t' k)) as G.
  { induction t' as [|r t' IH]; [reflexivity|].
    rewrite pltData_cons, plotted_app, plotted_stack_row, IH.
    unfold sample_of, to_numpy. rewrite group_rows_cons.
    destruct (String.eqb (algorithm r) k); [|reflexivity].
    cbn [map filter]. now destruct (PrimFloat.is_nan (column m r)). }
  split; [apply G|]. rewrite G.
  unfold sample_of. rewrite fillna_group_rows, fillna_to_numpy.
  induction (to_numpy m (group_rows t k)) as [|x l IH]; [reflexivity|].
  cbn [map filter]. rewrite (fill_not_nan 0 x eq_refl). cbn [negb]. now rewrite IH.
Qed.
